(** * spdlog: the Windows colour console sink

    A shallow embedding of [include/spdlog/sinks/wincolor_sink-inl.h].

    The sink talks to the operating system through five Win32 entry points
    ([GetConsoleMode], [GetConsoleScreenBufferInfo], [SetConsoleTextAttribute],
    [WriteConsoleA], [WriteFile]), to its mutex and to its formatter.  Every
    such interaction is recorded, in program order, in the [calls] of a
    [world]; the methods of the sink are written in a small state monad over
    that world, statement by statement as in the C++ source. *)

From Stdlib Require Import Strings.Byte Strings.String.
From Stdlib Require Import List NArith ZArith Lia Bool.
Import ListNotations.

Set Implicit Arguments.

(** ** Machine integers

    [size_t] values are modelled as [N].  The source performs two operations
    on them: [end - start], guarded by [end > start], and [i + 1] with
    [i < num_start_ranges]; neither can wrap at any width, so no modulus is
    taken.  The narrowing [static_cast<DWORD>] keeps the low 32 bits.
    [WORD] and [std::uint16_t] are 16-bit and modelled as [Z]. *)

Definition to_DWORD (n : N) : N := (n mod 2 ^ 32)%N.

Definition to_WORD (x : Z) : Z := (x mod 2 ^ 16)%Z.

Definition is_WORD (x : Z) : Prop := (0 <= x < 2 ^ 16)%Z.

(** Character attributes of [wincon.h]. *)
Definition FOREGROUND_BLUE : Z := 0x0001.
Definition FOREGROUND_GREEN : Z := 0x0002.
Definition FOREGROUND_RED : Z := 0x0004.
Definition FOREGROUND_INTENSITY : Z := 0x0008.
Definition BACKGROUND_RED : Z := 0x0040.

(** The value the source returns when the screen buffer cannot be queried:
    [FOREGROUND_RED | FOREGROUND_GREEN | FOREGROUND_BLUE]. *)
Definition white : Z :=
  Z.lor (Z.lor FOREGROUND_RED FOREGROUND_GREEN) FOREGROUND_BLUE.

(** Handles are pointer values; [INVALID_HANDLE_VALUE] is [(HANDLE)-1]. *)
Definition HANDLE := Z.
Definition nullptr : HANDLE := 0%Z.
Definition INVALID_HANDLE_VALUE : HANDLE := (-1)%Z.

(** The selectors taken by [GetStdHandle]. *)
Definition STD_OUTPUT_HANDLE : Z := (-11)%Z.
Definition STD_ERROR_HANDLE : Z := (-12)%Z.

(** ** Data of the logging library *)

Module level.
Inductive level_enum := trace | debug | info | warn | err | critical | off.
End level.

Inductive color_mode := always | automatic | never.

Definition memory_buf_t := list byte.

(** [formatted.size()] *)
Definition size (formatted : memory_buf_t) : N := N.of_nat (length formatted).

(** Modelled from the spec: the declaration of [details::log_msg] is not part
    of the translated file.  The record carries the severity level, the
    payload, and the highlight bookkeeping the sink reads and writes: two
    counts and two fixed-capacity arrays of offsets ("start_ranges: sequence
    of offset, end_ranges: sequence of offset, both bounded by a fixed
    maximum count, and a severity level"). *)
Record log_msg := mk_log_msg {
  level : level.level_enum;
  payload : list byte;
  num_start_ranges : N;
  color_ranges_start : list N;
  num_end_ranges : N;
  color_ranges_end : list N
}.

(** [arr[i]] on an array of [size_t].  Reading past the array is undefined in
    C++; the model reads 0 there. *)
Definition at_ (arr : list N) (i : N) : N := nth (N.to_nat i) arr 0%N.

Definition set_num_start_ranges (n : N) (msg : log_msg) : log_msg :=
  mk_log_msg (level msg) (payload msg) n (color_ranges_start msg)
             (num_end_ranges msg) (color_ranges_end msg).

Definition set_color_ranges_start (a : list N) (msg : log_msg) : log_msg :=
  mk_log_msg (level msg) (payload msg) (num_start_ranges msg) a
             (num_end_ranges msg) (color_ranges_end msg).

Definition set_num_end_ranges (n : N) (msg : log_msg) : log_msg :=
  mk_log_msg (level msg) (payload msg) (num_start_ranges msg)
             (color_ranges_start msg) n (color_ranges_end msg).

Definition set_color_ranges_end (a : list N) (msg : log_msg) : log_msg :=
  mk_log_msg (level msg) (payload msg) (num_start_ranges msg)
             (color_ranges_start msg) (num_end_ranges msg) a.

(** [memset(arr, 0, sizeof(size_t) * MAX_RANGES)] on an array of
    [MAX_RANGES] entries. *)
Definition memset_zero (MAX_RANGES : nat) : list N := repeat 0%N MAX_RANGES.

(** What [formatter::format(msg, dest)] leaves behind.  The message is passed
    by const reference, so the formatter can change its [mutable] range
    fields only; [dest] is the buffer it fills (it starts empty in [log]). *)
Record format_result := mk_format_result {
  out_num_start_ranges : N;
  out_color_ranges_start : list N;
  out_num_end_ranges : N;
  out_color_ranges_end : list N;
  dest : memory_buf_t
}.

(** The formatter is an external collaborator behind a virtual interface: any
    function of the message it is handed. *)
Definition formatter := log_msg -> format_result.

Definition store_ranges (r : format_result) (msg : log_msg) : log_msg :=
  mk_log_msg (level msg) (payload msg)
             (out_num_start_ranges r) (out_color_ranges_start r)
             (out_num_end_ranges r) (out_color_ranges_end r).

(** ** The world outside the sink *)

Inductive call :=
| E_lock
| E_unlock
| E_format (msg : log_msg)
| E_GetConsoleMode
| E_GetConsoleScreenBufferInfo
| E_SetConsoleTextAttribute (wAttributes : Z)
| E_WriteConsoleA (formatted : memory_buf_t) (start : N) (nNumberOfCharsToWrite : N)
| E_WriteFile (formatted : memory_buf_t) (nNumberOfBytesToWrite : N).

(** The object behind [out_handle_]: whether each kind of console request on
    it succeeds, its current character attributes, and every call issued so
    far, oldest first. *)
Record world := mk_world {
  console_mode_ok : bool;
  buffer_info_ok : bool;
  set_attribute_ok : bool;
  wAttributes : Z;
  calls : list call
}.

Definition record_call (c : call) (w : world) : world :=
  mk_world (console_mode_ok w) (buffer_info_ok w) (set_attribute_ok w)
           (wAttributes w) (calls w ++ [c]).

(** The bytes a write call hands to the device: [nNumberOf...ToWrite] bytes
    from [formatted.data() + start]. *)
Definition slice (formatted : memory_buf_t) (start len : N) : list byte :=
  firstn (N.to_nat len) (skipn (N.to_nat start) formatted).

Definition written (c : call) : list byte :=
  match c with
  | E_WriteConsoleA formatted start len => slice formatted start len
  | E_WriteFile formatted len => slice formatted 0 len
  | _ => []
  end.

Definition is_write (c : call) : bool :=
  match c with
  | E_WriteConsoleA _ _ _ | E_WriteFile _ _ => true
  | _ => false
  end.

Definition is_set_attribute (c : call) : bool :=
  match c with
  | E_SetConsoleTextAttribute _ => true
  | _ => false
  end.

Definition is_buffer_info (c : call) : bool :=
  match c with
  | E_GetConsoleScreenBufferInfo => true
  | _ => false
  end.

Definition is_format (c : call) : bool :=
  match c with
  | E_format _ => true
  | _ => false
  end.

(** All payload bytes of a run of calls, in order. *)
Definition output (cs : list call) : list byte := concat (map written cs).

(** ** A state monad over the world *)

Definition M (A : Type) : Type := world -> A * world.

Definition ret {A} (a : A) : M A := fun w => (a, w).

Definition bind {A B} (m : M A) (k : A -> M B) : M B :=
  fun w => let (a, w') := m w in k a w'.

Declare Scope sink_scope.
Delimit Scope sink_scope with sink.
Notation "x <- m ;; k" := (bind m (fun x => k))
  (at level 61, m at next level, right associativity) : sink_scope.
Notation "m ;; k" := (bind m (fun _ => k))
  (at level 61, right associativity) : sink_scope.
Open Scope sink_scope.

Definition emit (c : call) : M unit := fun w => (tt, record_call c w).

(** [std::lock_guard<mutex_t> lock(mutex_)] and its destructor. *)
Definition lock_guard : M unit := emit E_lock.
Definition unlock_guard : M unit := emit E_unlock.

(** The Win32 calls, each returning what the source can observe of it. *)
Definition GetConsoleMode : M bool :=
  fun w => (console_mode_ok w, record_call E_GetConsoleMode w).

Definition GetConsoleScreenBufferInfo : M (option Z) :=
  fun w => (if buffer_info_ok w then Some (wAttributes w) else None,
            record_call E_GetConsoleScreenBufferInfo w).

Definition SetConsoleTextAttribute (attrs : Z) : M bool :=
  fun w => (set_attribute_ok w,
            mk_world (console_mode_ok w) (buffer_info_ok w) (set_attribute_ok w)
                     (if set_attribute_ok w then to_WORD attrs else wAttributes w)
                     (calls w ++ [E_SetConsoleTextAttribute (to_WORD attrs)])).

Definition WriteConsoleA (formatted : memory_buf_t) (start len : N) : M unit :=
  emit (E_WriteConsoleA formatted start len).

Definition WriteFile (formatted : memory_buf_t) (len : N) : M unit :=
  emit (E_WriteFile formatted len).

(** ** The sink *)

(** Modelled from the spec: the class declaration ([wincolor_sink.h]) is not
    part of the translated file.  "Sink state: device handle, owned
    formatter, owned mutex, [in_console] flag, [should_do_colors] flag" and
    the per-level colour table.  The mutex is a reference to a lock shared
    by all sinks on the device; its acquisitions appear in [calls]. *)
Record wincolor_sink := mk_sink {
  out_handle_ : HANDLE;
  formatter_ : formatter;
  colors_ : level.level_enum -> Z;
  in_console_ : bool;
  should_do_colors_ : bool
}.

Definition level_eq_dec (a b : level.level_enum) : {a = b} + {a <> b}.
Proof. decide equality. Defined.

(** [colors_[lvl] = color] *)
Definition colors_store (lvl : level.level_enum) (color : Z)
           (colors : level.level_enum -> Z) : level.level_enum -> Z :=
  fun l => if level_eq_dec l lvl then color else colors l.

Definition with_colors (colors : level.level_enum -> Z) (this : wincolor_sink) :=
  mk_sink (out_handle_ this) (formatter_ this) colors
          (in_console_ this) (should_do_colors_ this).

Definition with_formatter (f : formatter) (this : wincolor_sink) :=
  mk_sink (out_handle_ this) f (colors_ this)
          (in_console_ this) (should_do_colors_ this).

Definition with_should_do_colors (b : bool) (this : wincolor_sink) :=
  mk_sink (out_handle_ this) (formatter_ this) (colors_ this)
          (in_console_ this) b.

Section Sink.

(** The capacity of the range arrays, a macro of a header outside the file. *)
Variable MAX_RANGES : nat.

(** [spdlog::pattern_formatter], built from a pattern or, with [None], from
    the default one; defined outside the file. *)
Variable pattern_formatter : option string -> formatter.

(** [::GetStdHandle], which looks up one of the standard handles of the
    process. *)
Variable GetStdHandle : Z -> HANDLE.

(** [set_color_mode_impl]: only [should_do_colors_] is assigned; the probe
    result is a local variable. *)
Definition set_color_mode_impl (mode : color_mode) (this : wincolor_sink)
  : M wincolor_sink :=
  match mode with
  | automatic =>
      in_console <- GetConsoleMode ;;
      ret (with_should_do_colors in_console this)
  | _ =>
      ret (with_should_do_colors
             (match mode with always => true | _ => false end) this)
  end.

(** The constructor.  [raw] stands for the storage the object is built in:
    the member initialiser list sets the handle and the formatter, the body
    sets [should_do_colors_] and the seven colours, and nothing in the file
    assigns [in_console_]. *)
Definition wincolor_sink_ctor (raw : wincolor_sink) (out_handle : HANDLE)
           (mode : color_mode) : M wincolor_sink :=
  let this := mk_sink out_handle (pattern_formatter None) (colors_ raw)
                      (in_console_ raw) (should_do_colors_ raw) in
  this <- set_color_mode_impl mode this ;;
  let c := colors_ this in
  let c := colors_store level.trace
             (Z.lor (Z.lor FOREGROUND_RED FOREGROUND_GREEN) FOREGROUND_BLUE) c in
  let c := colors_store level.debug (Z.lor FOREGROUND_GREEN FOREGROUND_BLUE) c in
  let c := colors_store level.info FOREGROUND_GREEN c in
  let c := colors_store level.warn
             (Z.lor (Z.lor FOREGROUND_RED FOREGROUND_GREEN) FOREGROUND_INTENSITY) c in
  let c := colors_store level.err (Z.lor FOREGROUND_RED FOREGROUND_INTENSITY) c in
  let c := colors_store level.critical
             (Z.lor (Z.lor (Z.lor (Z.lor BACKGROUND_RED FOREGROUND_RED)
                                  FOREGROUND_GREEN) FOREGROUND_BLUE)
                    FOREGROUND_INTENSITY) c in
  let c := colors_store level.off 0%Z c in
  ret (with_colors c this).

(** [wincolor_stdout_sink] and [wincolor_stderr_sink] only pick the handle. *)
Definition wincolor_stdout_sink_ctor (raw : wincolor_sink) (mode : color_mode)
  : M wincolor_sink :=
  wincolor_sink_ctor raw (GetStdHandle STD_OUTPUT_HANDLE) mode.

Definition wincolor_stderr_sink_ctor (raw : wincolor_sink) (mode : color_mode)
  : M wincolor_sink :=
  wincolor_sink_ctor raw (GetStdHandle STD_ERROR_HANDLE) mode.

(** [set_color].  The parameter is a [std::uint16_t]: whatever the caller
    passes arrives cut to 16 bits. *)
Definition set_color (lvl : level.level_enum) (color : Z) (this : wincolor_sink)
  : M wincolor_sink :=
  let color := to_WORD color in
  lock_guard ;;
  let this := with_colors (colors_store lvl color (colors_ this)) this in
  unlock_guard ;;
  ret this.

Definition flush (this : wincolor_sink) : M wincolor_sink := ret this.

Definition set_pattern (pattern : string) (this : wincolor_sink)
  : M wincolor_sink :=
  lock_guard ;;
  let this := with_formatter (pattern_formatter (Some pattern)) this in
  unlock_guard ;;
  ret this.

Definition set_formatter (sink_formatter : formatter) (this : wincolor_sink)
  : M wincolor_sink :=
  lock_guard ;;
  let this := with_formatter sink_formatter this in
  unlock_guard ;;
  ret this.

Definition set_color_mode (mode : color_mode) (this : wincolor_sink)
  : M wincolor_sink :=
  lock_guard ;;
  this <- set_color_mode_impl mode this ;;
  unlock_guard ;;
  ret this.

(** [set_foreground_color_]: returns the attributes to restore later. *)
Definition set_foreground_color_ (this : wincolor_sink) (attribs : Z) : M Z :=
  orig_buffer_info <- GetConsoleScreenBufferInfo ;;
  match orig_buffer_info with
  | None => ret (Z.lor (Z.lor FOREGROUND_RED FOREGROUND_GREEN) FOREGROUND_BLUE)
  | Some orig_wAttributes =>
      let new_attribs :=
        Z.lor (to_WORD attribs) (Z.land orig_wAttributes 0xfff0) in
      SetConsoleTextAttribute new_attribs ;;
      ret (to_WORD orig_wAttributes)
  end.

Definition print_range_ (this : wincolor_sink) (formatted : memory_buf_t)
           (start end_ : N) : M unit :=
  if (start <? end_)%N then
    let size := to_DWORD (end_ - start) in
    WriteConsoleA formatted start size
  else ret tt.

Definition write_to_file_ (this : wincolor_sink) (formatted : memory_buf_t)
  : M unit :=
  let size := to_DWORD (size formatted) in
  WriteFile formatted size.

(** [formatter_->format(msg, formatted)] on an empty [formatted]: the call is
    recorded with the message as passed, the range fields come back as the
    formatter left them. *)
Definition format (this : wincolor_sink) (msg : log_msg)
  : M (log_msg * memory_buf_t) :=
  emit (E_format msg) ;;
  let r := formatter_ this msg in
  ret (store_ranges r msg, dest r).

(** The [for] loop of [log]: [n] iterations remain and the index is [i]; it
    is entered with [n = num_start_ranges] and [i = 0], so [n] is the number
    of indices [j] with [i <= j < num_start_ranges]. *)
Fixpoint color_ranges_loop (this : wincolor_sink) (msg : log_msg)
         (formatted : memory_buf_t) (n : nat) (i : N) : M unit :=
  match n with
  | O => ret tt
  | S n' =>
      orig_attribs <- set_foreground_color_ this (colors_ this (level msg)) ;;
      print_range_ this formatted
                   (at_ (color_ranges_start msg) i) (at_ (color_ranges_end msg) i) ;;
      SetConsoleTextAttribute orig_attribs ;;
      (if (i + 1 <? num_start_ranges msg)%N then
         print_range_ this formatted
                      (at_ (color_ranges_end msg) i)
                      (at_ (color_ranges_start msg) (i + 1))
       else
         print_range_ this formatted (at_ (color_ranges_end msg) i) (size formatted)) ;;
      color_ranges_loop this msg formatted n' (i + 1)
  end.

(** [log].  The message is passed by reference and its range fields are
    [mutable]: the message as the call leaves it is the result. *)
Definition log (this : wincolor_sink) (msg : log_msg) : M log_msg :=
  if (out_handle_ this =? nullptr)%Z || (out_handle_ this =? INVALID_HANDLE_VALUE)%Z
  then ret msg
  else
    lock_guard ;;
    let msg := set_num_start_ranges 0 msg in
    let msg := set_color_ranges_start (memset_zero MAX_RANGES) msg in
    let msg := set_num_end_ranges 0 msg in
    let msg := set_color_ranges_end (memset_zero MAX_RANGES) msg in
    mf <- format this msg ;;
    let msg := fst mf in
    let formatted := snd mf in
    if negb (in_console_ this) then
      write_to_file_ this formatted ;;
      unlock_guard ;;
      ret msg
    else if should_do_colors_ this
            && (num_start_ranges msg =? num_end_ranges msg)%N then
      (if (0 <? num_start_ranges msg)%N then
         print_range_ this formatted 0 (at_ (color_ranges_start msg) 0) ;;
         color_ranges_loop this msg formatted (N.to_nat (num_start_ranges msg)) 0
       else
         orig_attribs <- set_foreground_color_ this (colors_ this (level msg)) ;;
         print_range_ this formatted 0 (size formatted) ;;
         SetConsoleTextAttribute orig_attribs ;;
         ret tt) ;;
      unlock_guard ;;
      ret msg
    else
      write_to_file_ this formatted ;;
      unlock_guard ;;
      ret msg.

End Sink.

(** ** Traces

    A run of calls acts on the world one call at a time: an attribute
    request changes [wAttributes] when the device accepts it, every call is
    appended to [calls]. *)

Definition step (w : world) (c : call) : world :=
  match c with
  | E_SetConsoleTextAttribute a =>
      mk_world (console_mode_ok w) (buffer_info_ok w) (set_attribute_ok w)
               (if set_attribute_ok w then a else wAttributes w)
               (calls w ++ [c])
  | _ => record_call c w
  end.

Definition replay (cs : list call) (w : world) : world := fold_left step cs w.

(** The world after calls that leave the attributes alone. *)
Definition append_calls (cs : list call) (w : world) : world :=
  mk_world (console_mode_ok w) (buffer_info_ok w) (set_attribute_ok w)
           (wAttributes w) (calls w ++ cs).

(** The message the formatter is handed: level and payload of the caller's
    message, both counts 0, both arrays zeroed. *)
Definition cleared (MAX_RANGES : nat) (msg : log_msg) : log_msg :=
  mk_log_msg (level msg) (payload msg)
             0 (memset_zero MAX_RANGES) 0 (memset_zero MAX_RANGES).

(** The first [n] ranges from index [i] on, as (start, end) pairs. *)
Fixpoint ranges_from (msg : log_msg) (n : nat) (i : N) : list (N * N) :=
  match n with
  | O => []
  | S n' =>
      (at_ (color_ranges_start msg) i, at_ (color_ranges_end msg) i)
        :: ranges_from msg n' (i + 1)
  end.

Definition ranges (msg : log_msg) : list (N * N) :=
  ranges_from msg (N.to_nat (num_start_ranges msg)) 0.

(** Ranges are well-ordered and in bounds: from [lo] on, each start is at
    most its end, each end at most the next start, the last end at most
    [hi]. *)
Fixpoint ordered_within (lo : N) (rs : list (N * N)) (hi : N) : Prop :=
  match rs with
  | [] => (lo <= hi)%N
  | (a, b) :: rest => (lo <= a)%N /\ (a <= b)%N /\ ordered_within b rest hi
  end.

(** *** What the specification prescribes *)

Section Prescribed.

Variable formatted : memory_buf_t.
Variables color ambient : Z.

(** The bytes [a, b) written with the attributes as they are. *)
Definition uncolored (a b : N) : list call :=
  if (a <? b)%N then [E_WriteConsoleA formatted a (b - a)] else [].

(** The level colour on the foreground bits, the other bits as they were. *)
Definition applied : Z := Z.lor (to_WORD color) (Z.land ambient 0xfff0).

(** Capture and apply, write [a, b), restore what was captured. *)
Definition colored (a b : N) : list call :=
  [E_GetConsoleScreenBufferInfo; E_SetConsoleTextAttribute applied]
    ++ uncolored a b ++ [E_SetConsoleTextAttribute ambient].

(** Each range coloured and followed by the gap up to the next range, or up
    to the end of the buffer after the last one. *)
Fixpoint colored_ranges (rs : list (N * N)) : list call :=
  match rs with
  | [] => []
  | (a, b) :: rest =>
      colored a b
        ++ uncolored b (match rest with
                        | [] => size formatted
                        | (a', _) :: _ => a'
                        end)
        ++ colored_ranges rest
  end.

Definition colorized (rs : list (N * N)) : list call :=
  match rs with
  | [] => colored 0 (size formatted)
  | (a, _) :: _ => uncolored 0 a ++ colored_ranges rs
  end.

(** The whole buffer in one plain write. *)
Definition plain : list call := [E_WriteFile formatted (size formatted)].

End Prescribed.

(** *** What the code issues: the calls of [log] as a function of its inputs,
    of whether the screen buffer can be queried ([ok]) and of the attributes
    in force when the call starts. *)

Section Issued.

Variable formatted : memory_buf_t.
Variable ok : bool.
Variables color ambient : Z.

Definition print_range_calls (a b : N) : list call :=
  if (a <? b)%N then [E_WriteConsoleA formatted a (to_DWORD (b - a))] else [].

Definition span_calls (a b : N) : list call :=
  E_GetConsoleScreenBufferInfo
    :: (if ok then [E_SetConsoleTextAttribute (to_WORD (applied color ambient))]
        else [])
    ++ print_range_calls a b
    ++ [E_SetConsoleTextAttribute (if ok then ambient else white)].

Fixpoint loop_calls (msg : log_msg) (n : nat) (i : N) : list call :=
  match n with
  | O => []
  | S n' =>
      span_calls (at_ (color_ranges_start msg) i) (at_ (color_ranges_end msg) i)
        ++ print_range_calls
             (at_ (color_ranges_end msg) i)
             (if (i + 1 <? num_start_ranges msg)%N
              then at_ (color_ranges_start msg) (i + 1)
              else size formatted)
        ++ loop_calls msg n' (i + 1)
  end.

Definition write_to_file_calls : list call :=
  [E_WriteFile formatted (to_DWORD (size formatted))].

End Issued.

Definition valid_handle (h : HANDLE) : Prop :=
  h <> nullptr /\ h <> INVALID_HANDLE_VALUE.

Definition log_calls (MAX_RANGES : nat) (this : wincolor_sink) (msg : log_msg)
           (ok : bool) (ambient : Z) : list call :=
  if (out_handle_ this =? nullptr)%Z || (out_handle_ this =? INVALID_HANDLE_VALUE)%Z
  then []
  else
    let r := formatter_ this (cleared MAX_RANGES msg) in
    let msg' := store_ranges r msg in
    let color := colors_ this (level msg) in
    [E_lock; E_format (cleared MAX_RANGES msg)]
      ++ (if negb (in_console_ this) then write_to_file_calls (dest r)
          else if should_do_colors_ this
                  && (num_start_ranges msg' =? num_end_ranges msg')%N then
            if (0 <? num_start_ranges msg')%N then
              print_range_calls (dest r) 0 (at_ (color_ranges_start msg') 0)
                ++ loop_calls (dest r) ok color ambient msg'
                     (N.to_nat (num_start_ranges msg')) 0
            else span_calls (dest r) ok color ambient 0 (size (dest r))
          else write_to_file_calls (dest r))
      ++ [E_unlock].

(** The calls a computation adds to the trace when run from [w]. *)
Definition issued {A} (m : M A) (w : world) : list call :=
  skipn (length (calls w)) (calls (snd (m w))).

(** What the formatter hands back to [log]: the buffer, and the message with
    the range fields as the formatter left them. *)
Definition formatted_by (MAX_RANGES : nat) (this : wincolor_sink) (msg : log_msg)
  : memory_buf_t :=
  dest (formatter_ this (cleared MAX_RANGES msg)).

Definition annotated (MAX_RANGES : nat) (this : wincolor_sink) (msg : log_msg)
  : log_msg :=
  store_ranges (formatter_ this (cleared MAX_RANGES msg)) msg.

(** A run of calls that leaves the attributes [ambient] in force whenever it
    starts with them in force. *)
Definition restores (ambient : Z) (cs : list call) : Prop :=
  forall w, wAttributes w = ambient -> wAttributes (replay cs w) = ambient.

(** [c] is no attribute request, or it requests one of [allowed]. *)
Definition requests_only (allowed : list Z) (c : call) : Prop :=
  match c with
  | E_SetConsoleTextAttribute a => In a allowed
  | _ => True
  end.

(** ** Sample inputs *)

Definition bytes (s : string) : memory_buf_t := list_byte_of_string s.

Definition default_colors (l : level.level_enum) : Z :=
  match l with
  | level.trace => 7 | level.debug => 3 | level.info => 2 | level.warn => 14
  | level.err => 12 | level.critical => 79 | level.off => 0
  end%Z.

(** A formatter that marks nothing, one that marks the two ranges [0,3) and
    [5,8) of a ten-byte line, one that marks [2,5), and one with one start
    but no end. *)
Definition format_unmarked : formatter :=
  fun _ => mk_format_result 0 [0; 0; 0]%N 0 [0; 0; 0]%N (bytes "0123456789").

Definition format_two_ranges : formatter :=
  fun _ => mk_format_result 2 [0; 5; 0]%N 2 [3; 8; 0]%N (bytes "0123456789").

Definition format_one_range : formatter :=
  fun _ => mk_format_result 1 [2; 0; 0]%N 1 [5; 0; 0]%N (bytes "0123456789").

Definition format_unbalanced : formatter :=
  fun _ => mk_format_result 1 [2; 0; 0]%N 0 [0; 0; 0]%N (bytes "0123456789").

(** A line of exactly 2^32 bytes, and formatters that produce it. *)
Definition huge : memory_buf_t := repeat "x"%byte (N.to_nat (2 ^ 32)).

Definition format_huge_unmarked : formatter :=
  fun _ => mk_format_result 0 [0; 0; 0]%N 0 [0; 0; 0]%N huge.

Definition format_huge_one_range : formatter :=
  fun _ => mk_format_result 1 [0; 0; 0]%N 1 [2 ^ 32; 0; 0]%N huge.

Definition sample_handle : HANDLE := 100%Z.

Definition sample_msg : log_msg :=
  mk_log_msg level.err (bytes "disk full") 7 [1; 2; 3]%N 4 [9; 9; 9]%N.

(** Sinks on a console, colouring or not, on a redirected device, and one
    built on a null handle. *)
Definition console_sink (f : formatter) : wincolor_sink :=
  mk_sink sample_handle f default_colors true true.

Definition plain_console_sink (f : formatter) : wincolor_sink :=
  mk_sink sample_handle f default_colors true false.

Definition file_sink (f : formatter) : wincolor_sink :=
  mk_sink sample_handle f default_colors false true.

Definition null_sink : wincolor_sink :=
  mk_sink nullptr format_two_ranges default_colors true true.

(** The message of [sample_msg] as the formatter receives it when the
    arrays hold three ranges. *)
Definition sample_cleared : log_msg :=
  mk_log_msg level.err (bytes "disk full") 0 [0; 0; 0]%N 0 [0; 0; 0]%N.

(** A console that shows bright green on blue, and one whose screen buffer
    cannot be queried although attributes can be set. *)
Definition console : world := mk_world true true true 0x1A%Z [].

Definition console_no_info : world := mk_world true false true 0x1A%Z [].

(** A redirected device: no console request succeeds on it. *)
Definition redirected : world := mk_world false false false 0%Z [].

(** ** Further classification of calls *)

Definition is_lock (c : call) : bool :=
  match c with E_lock => true | _ => false end.

Definition is_unlock (c : call) : bool :=
  match c with E_unlock => true | _ => false end.

Definition is_console_mode (c : call) : bool :=
  match c with E_GetConsoleMode => true | _ => false end.

Definition is_WriteFile (c : call) : bool :=
  match c with E_WriteFile _ _ => true | _ => false end.

Definition is_WriteConsoleA (c : call) : bool :=
  match c with E_WriteConsoleA _ _ _ => true | _ => false end.

(** A write call asks for at least one byte. *)
Definition positive_length (c : call) : Prop :=
  match c with
  | E_WriteConsoleA _ _ len => (0 < len)%N
  | E_WriteFile _ len => (0 < len)%N
  | _ => True
  end.

(** A write call reads only bytes of the buffer it points into. *)
Definition reads_within (c : call) : Prop :=
  match c with
  | E_WriteConsoleA formatted start len => (start + len <= size formatted)%N
  | E_WriteFile formatted len => (len <= size formatted)%N
  | _ => True
  end.

(** The branch of [log] that colours: console, colouring on, as many range
    starts as range ends after formatting. *)
Definition colours (MAX_RANGES : nat) (this : wincolor_sink) (msg : log_msg) : bool :=
  in_console_ this && should_do_colors_ this
  && (num_start_ranges (annotated MAX_RANGES this msg)
      =? num_end_ranges (annotated MAX_RANGES this msg))%N.

(** The calls [log] makes on the device between taking and releasing the
    lock, after the formatter has run. *)
Definition device_calls (MAX_RANGES : nat) (this : wincolor_sink) (msg : log_msg)
           (ok : bool) (ambient : Z) : list call :=
  if colours MAX_RANGES this msg then
    if (0 <? num_start_ranges (annotated MAX_RANGES this msg))%N then
      print_range_calls (formatted_by MAX_RANGES this msg) 0
        (at_ (color_ranges_start (annotated MAX_RANGES this msg)) 0)
      ++ loop_calls (formatted_by MAX_RANGES this msg) ok
           (colors_ this (level msg)) ambient (annotated MAX_RANGES this msg)
           (N.to_nat (num_start_ranges (annotated MAX_RANGES this msg))) 0
    else
      span_calls (formatted_by MAX_RANGES this msg) ok
        (colors_ this (level msg)) ambient 0
        (size (formatted_by MAX_RANGES this msg))
  else write_to_file_calls (formatted_by MAX_RANGES this msg).

(** A formatter that produces no byte and marks nothing. *)
Definition format_empty : formatter :=
  fun _ => mk_format_result 0 [0; 0; 0]%N 0 [0; 0; 0]%N [].

(** * Properties *)

(** ** Words *)

Lemma to_WORD_id x : is_WORD x -> to_WORD x = x.
Proof. intros H. unfold to_WORD. apply Z.mod_small. exact H. Qed.

Lemma to_WORD_is_WORD x : is_WORD (to_WORD x).
Proof. unfold is_WORD, to_WORD. apply Z.mod_pos_bound. reflexivity. Qed.

Lemma high_bits_is_WORD x :
  (0 <= x)%Z -> (forall n, (16 <= n)%Z -> Z.testbit x n = false) -> is_WORD x.
Proof.
  intros Hx Hbits. split; [exact Hx|].
  destruct (Z.eq_dec x 0) as [->|Hne]; [reflexivity|].
  assert (Hpos : (0 < x)%Z) by lia.
  apply Z.log2_lt_pow2; [exact Hpos|].
  destruct (Z_lt_le_dec (Z.log2 x) 16) as [Hlt|Hge]; [exact Hlt|].
  pose proof (Z.bit_log2 x Hpos) as Hb.
  rewrite (Hbits _ Hge) in Hb. discriminate.
Qed.

Lemma is_WORD_high_bits x n : is_WORD x -> (16 <= n)%Z -> Z.testbit x n = false.
Proof.
  intros [H0 H1] Hn.
  destruct (Z.eq_dec x 0) as [->|Hne]; [apply Z.bits_0|].
  apply Z.bits_above_log2; [exact H0|].
  assert (Z.log2 x < 16)%Z by (apply Z.log2_lt_pow2; lia). lia.
Qed.

(** The attributes [set_foreground_color_] requests fit a [WORD], so the
    conversion at the call of [SetConsoleTextAttribute] keeps them. *)
Lemma applied_is_WORD color ambient : is_WORD (applied color ambient).
Proof.
  unfold applied. apply high_bits_is_WORD.
  - apply Z.lor_nonneg. split.
    + apply to_WORD_is_WORD.
    + apply Z.land_nonneg. right. discriminate.
  - intros n Hn. rewrite Z.lor_spec, Z.land_spec.
    rewrite (is_WORD_high_bits (to_WORD_is_WORD color) Hn).
    assert (Hm : is_WORD 0xfff0) by (split; [discriminate | reflexivity]).
    rewrite (is_WORD_high_bits Hm Hn).
    now rewrite Bool.andb_false_r.
Qed.

(** ** Running the monad *)

Lemma bind_run {A B} (m : M A) (k : A -> M B) w a w' :
  m w = (a, w') -> bind m k w = k a w'.
Proof. intros H. unfold bind. now rewrite H. Qed.

Lemma replay_app cs1 cs2 w : replay (cs1 ++ cs2) w = replay cs2 (replay cs1 w).
Proof. unfold replay. apply fold_left_app. Qed.

Lemma replay_flags cs : forall w,
  console_mode_ok (replay cs w) = console_mode_ok w
  /\ buffer_info_ok (replay cs w) = buffer_info_ok w
  /\ set_attribute_ok (replay cs w) = set_attribute_ok w.
Proof.
  induction cs as [|c cs IH]; intros w; [now repeat split|].
  change (replay (c :: cs) w) with (replay cs (step w c)).
  destruct (IH (step w c)) as (H1 & H2 & H3).
  rewrite H1, H2, H3. destruct c; now repeat split.
Qed.

Lemma replay_calls cs : forall w, calls (replay cs w) = calls w ++ cs.
Proof.
  induction cs as [|c cs IH]; intros w.
  - now rewrite app_nil_r.
  - change (replay (c :: cs) w) with (replay cs (step w c)).
    rewrite IH. destruct c; simpl; now rewrite <- app_assoc.
Qed.

(** Calls other than attribute requests leave the attributes alone. *)
Lemma replay_no_set cs : forall w,
  forallb (fun c => negb (is_set_attribute c)) cs = true ->
  replay cs w = append_calls cs w.
Proof.
  induction cs as [|c cs IH]; intros w H.
  - unfold append_calls. simpl. rewrite app_nil_r. now destruct w.
  - simpl in H. apply andb_prop in H. destruct H as [Hc Hcs].
    change (replay (c :: cs) w) with (replay cs (step w c)).
    rewrite (IH _ Hcs).
    destruct c; try discriminate; unfold append_calls; simpl;
      now rewrite <- app_assoc.
Qed.

Lemma emit_replay c w :
  is_set_attribute c = false -> emit c w = (tt, replay [c] w).
Proof. intros H. destruct c; try discriminate; reflexivity. Qed.

Lemma SetConsoleTextAttribute_replay a w :
  SetConsoleTextAttribute a w
  = (set_attribute_ok w, replay [E_SetConsoleTextAttribute (to_WORD a)] w).
Proof. reflexivity. Qed.

Lemma print_range_replay this formatted a b w :
  print_range_ this formatted a b w = (tt, replay (print_range_calls formatted a b) w).
Proof.
  unfold print_range_, print_range_calls.
  destruct (a <? b)%N; [reflexivity|]. now destruct w.
Qed.

Lemma write_to_file_replay this formatted w :
  write_to_file_ this formatted w = (tt, replay (write_to_file_calls formatted) w).
Proof. reflexivity. Qed.

Lemma set_foreground_color_run this attribs w :
  set_foreground_color_ this attribs w
  = if buffer_info_ok w then
      (to_WORD (wAttributes w),
       replay [E_GetConsoleScreenBufferInfo;
               E_SetConsoleTextAttribute (to_WORD (applied attribs (wAttributes w)))] w)
    else (white, replay [E_GetConsoleScreenBufferInfo] w).
Proof.
  unfold set_foreground_color_, bind, GetConsoleScreenBufferInfo.
  destruct (buffer_info_ok w) eqn:E; reflexivity.
Qed.

(** ** The calls of [log] *)

Lemma to_WORD_idem x : to_WORD (to_WORD x) = to_WORD x.
Proof. apply to_WORD_id, to_WORD_is_WORD. Qed.

(** Only the low sixteen bits of the captured attributes reach [applied]. *)
Lemma applied_to_WORD color ambient :
  applied color (to_WORD ambient) = applied color ambient.
Proof.
  unfold applied. f_equal. apply Z.bits_inj'. intros n Hn.
  rewrite !Z.land_spec.
  destruct (Z_lt_le_dec n 16) as [Hlt|Hge].
  - unfold to_WORD. now rewrite Z.mod_pow2_bits_low.
  - assert (Hm : is_WORD 0xfff0) by (split; [discriminate | reflexivity]).
    rewrite (is_WORD_high_bits Hm Hge). now rewrite !Bool.andb_false_r.
Qed.

(** One coloured span: query, apply, write, restore. *)
Lemma span_run {B} this formatted color a b (k : M B) w :
  (orig_attribs <- set_foreground_color_ this color ;;
   print_range_ this formatted a b ;;
   SetConsoleTextAttribute orig_attribs ;;
   k) w
  = k (replay (span_calls formatted (buffer_info_ok w) color
                          (to_WORD (wAttributes w)) a b) w).
Proof.
  pose proof (set_foreground_color_run this color w) as Hfg.
  unfold span_calls.
  destruct (buffer_info_ok w) eqn:Hok.
  - erewrite bind_run by exact Hfg.
    erewrite bind_run by apply print_range_replay.
    erewrite bind_run by apply SetConsoleTextAttribute_replay.
    rewrite applied_to_WORD, to_WORD_idem.
    rewrite <- !replay_app. reflexivity.
  - erewrite bind_run by exact Hfg.
    erewrite bind_run by apply print_range_replay.
    erewrite bind_run by apply SetConsoleTextAttribute_replay.
    rewrite <- !replay_app. reflexivity.
Qed.

Lemma span_attributes formatted ok color ambient a b w :
  wAttributes (replay (span_calls formatted ok color ambient a b) w)
  = if set_attribute_ok w then (if ok then ambient else white)
    else wAttributes w.
Proof.
  unfold span_calls, print_range_calls.
  destruct w as [cm bi sa wa cs]; simpl.
  destruct ok, (a <? b)%N, sa; reflexivity.
Qed.

Lemma white_is_WORD : is_WORD white.
Proof. split; [discriminate | reflexivity]. Qed.

(** Without a successful query the attributes in force are never read. *)
Lemma loop_calls_blind formatted color ambient ambient' msg n :
  forall i,
    loop_calls formatted false color ambient msg n i
    = loop_calls formatted false color ambient' msg n i.
Proof.
  induction n as [|n IH]; intros i; [reflexivity|].
  cbn [loop_calls]. now rewrite (IH (i + 1)%N).
Qed.

Lemma print_range_attributes formatted a b w :
  wAttributes (replay (print_range_calls formatted a b) w) = wAttributes w.
Proof. unfold print_range_calls. now destruct (a <? b)%N. Qed.

Lemma color_ranges_loop_run this msg formatted n :
  forall i w,
    color_ranges_loop this msg formatted n i w
    = (tt, replay (loop_calls formatted (buffer_info_ok w)
                              (colors_ this (level msg))
                              (to_WORD (wAttributes w)) msg n i) w).
Proof.
  induction n as [|n IH]; intros i w; [reflexivity|].
  cbn [color_ranges_loop loop_calls].
  rewrite span_run.
  remember (span_calls formatted (buffer_info_ok w) (colors_ this (level msg))
                       (to_WORD (wAttributes w)) (at_ (color_ranges_start msg) i)
                       (at_ (color_ranges_end msg) i)) as sp eqn:Esp.
  remember (if (i + 1 <? num_start_ranges msg)%N
            then at_ (color_ranges_start msg) (i + 1)
            else size formatted) as next eqn:Enext.
  assert (Hgap :
    (if (i + 1 <? num_start_ranges msg)%N
     then print_range_ this formatted (at_ (color_ranges_end msg) i)
                       (at_ (color_ranges_start msg) (i + 1))
     else print_range_ this formatted (at_ (color_ranges_end msg) i) (size formatted))
      (replay sp w)
    = (tt, replay (print_range_calls formatted (at_ (color_ranges_end msg) i) next)
                  (replay sp w))).
  { subst next. destruct (i + 1 <? num_start_ranges msg)%N; apply print_range_replay. }
  erewrite bind_run by exact Hgap.
  remember (print_range_calls formatted (at_ (color_ranges_end msg) i) next)
    as gap eqn:Egap.
  assert (Hattr : wAttributes (replay gap (replay sp w))
                  = if set_attribute_ok w
                    then (if buffer_info_ok w then to_WORD (wAttributes w) else white)
                    else wAttributes w).
  { subst gap sp. rewrite print_range_attributes. apply span_attributes. }
  assert (Hflag : buffer_info_ok (replay gap (replay sp w)) = buffer_info_ok w).
  { rewrite (proj1 (proj2 (replay_flags gap _))).
    apply (proj1 (proj2 (replay_flags sp _))). }
  rewrite IH, Hflag, Hattr, !replay_app.
  destruct (buffer_info_ok w).
  - destruct (set_attribute_ok w); [now rewrite to_WORD_idem | reflexivity].
  - now rewrite (loop_calls_blind formatted (colors_ this (level msg))
                   (to_WORD (if set_attribute_ok w then white else wAttributes w))
                   (to_WORD (wAttributes w))).
Qed.

(** The four resetting statements of [log] together. *)
Lemma log_cleared MAX_RANGES msg :
  set_color_ranges_end (memset_zero MAX_RANGES)
    (set_num_end_ranges 0
       (set_color_ranges_start (memset_zero MAX_RANGES)
          (set_num_start_ranges 0 msg)))
  = cleared MAX_RANGES msg.
Proof. reflexivity. Qed.

(** [log] on any path: its result and the world it leaves are those of its
    calls replayed. *)
Lemma log_run MAX_RANGES this msg w :
  log MAX_RANGES this msg w
  = (if (out_handle_ this =? nullptr)%Z || (out_handle_ this =? INVALID_HANDLE_VALUE)%Z
     then msg
     else annotated MAX_RANGES this msg,
     replay (log_calls MAX_RANGES this msg (buffer_info_ok w)
                       (to_WORD (wAttributes w))) w).
Proof.
  unfold log, log_calls, annotated.
  destruct ((out_handle_ this =? nullptr)%Z || (out_handle_ this =? INVALID_HANDLE_VALUE)%Z).
  { now destruct w. }
  rewrite log_cleared.
  erewrite bind_run by (apply emit_replay; reflexivity).
  unfold format.
  erewrite bind_run by (erewrite bind_run by (apply emit_replay; reflexivity); reflexivity).
  cbn [fst snd].
  change (store_ranges (formatter_ this (cleared MAX_RANGES msg)) (cleared MAX_RANGES msg))
    with (store_ranges (formatter_ this (cleared MAX_RANGES msg)) msg).
  remember (formatter_ this (cleared MAX_RANGES msg)) as r eqn:Er.
  remember (store_ranges r msg) as msg' eqn:Emsg'.
  assert (Hlevel : level msg' = level msg) by now subst msg'.
  rewrite <- !replay_app.
  change ([E_lock] ++ [E_format (cleared MAX_RANGES msg)])
    with [E_lock; E_format (cleared MAX_RANGES msg)].
  remember (replay [E_lock; E_format (cleared MAX_RANGES msg)] w) as w1 eqn:Ew1.
  assert (Hw1 : wAttributes w1 = wAttributes w) by now subst w1.
  assert (Hok1 : buffer_info_ok w1 = buffer_info_ok w) by now subst w1.
  rewrite !replay_app, <- Ew1.
  assert (Hplain :
    (write_to_file_ this (dest r);; unlock_guard;; ret msg') w1
    = (msg', replay [E_unlock] (replay (write_to_file_calls (dest r)) w1))).
  { erewrite bind_run by apply write_to_file_replay.
    erewrite bind_run by (apply emit_replay; reflexivity). reflexivity. }
  destruct (negb (in_console_ this)); [exact Hplain|].
  destruct (should_do_colors_ this && (num_start_ranges msg' =? num_end_ranges msg')%N);
    [|exact Hplain].
  destruct (0 <? num_start_ranges msg')%N.
  - erewrite bind_run.
    2:{ erewrite bind_run by apply print_range_replay.
        apply color_ranges_loop_run. }
    erewrite bind_run by (apply emit_replay; reflexivity).
    rewrite (proj1 (proj2 (replay_flags _ _))), print_range_attributes.
    rewrite Hok1, Hw1, Hlevel, !replay_app. reflexivity.
  - erewrite bind_run.
    2:{ rewrite span_run. reflexivity. }
    erewrite bind_run by (apply emit_replay; reflexivity).
    rewrite Hok1, Hw1, Hlevel. reflexivity.
Qed.

(** ** Bytes of the buffer *)

Lemma to_DWORD_small n : (n < 2 ^ 32)%N -> to_DWORD n = n.
Proof. intros H. unfold to_DWORD. now apply N.mod_small. Qed.

Lemma firstn_then_firstn {A} (l : list A) : forall n m,
  firstn n l ++ firstn m (skipn n l) = firstn (n + m) l.
Proof.
  induction l as [|x l IH]; intros n m.
  - now rewrite skipn_nil, !firstn_nil.
  - destruct n as [|n]; [reflexivity|].
    simpl. now rewrite IH.
Qed.

Lemma slice_app formatted a b c :
  (a <= b)%N -> (b <= c)%N ->
  slice formatted a (b - a) ++ slice formatted b (c - b) = slice formatted a (c - a).
Proof.
  intros Hab Hbc. unfold slice.
  replace (N.to_nat b) with (N.to_nat (b - a) + N.to_nat a)%nat by lia.
  rewrite <- skipn_skipn, firstn_then_firstn.
  f_equal. lia.
Qed.

Lemma slice_all formatted : slice formatted 0 (size formatted) = formatted.
Proof.
  unfold slice, size. rewrite Nnat.Nat2N.id. simpl. apply firstn_all.
Qed.

Lemma output_app cs1 cs2 : output (cs1 ++ cs2) = output cs1 ++ output cs2.
Proof. unfold output. now rewrite map_app, concat_app. Qed.

Lemma output_uncolored formatted a b :
  (a <= b)%N -> output (uncolored formatted a b) = slice formatted a (b - a).
Proof.
  intros Hab. unfold uncolored.
  destruct (N.ltb_spec a b) as [Hlt|Hge].
  - unfold output. simpl. apply app_nil_r.
  - replace (b - a)%N with 0%N by lia. reflexivity.
Qed.

Lemma output_colored formatted color ambient a b :
  (a <= b)%N ->
  output (colored formatted color ambient a b) = slice formatted a (b - a).
Proof.
  intros Hab. unfold colored.
  change (output ([E_GetConsoleScreenBufferInfo;
                   E_SetConsoleTextAttribute (applied color ambient)]
                    ++ uncolored formatted a b ++ [E_SetConsoleTextAttribute ambient]))
    with (output (uncolored formatted a b ++ [E_SetConsoleTextAttribute ambient])).
  rewrite output_app, output_uncolored by exact Hab. apply app_nil_r.
Qed.

Lemma ordered_within_le rs : forall lo hi, ordered_within lo rs hi -> (lo <= hi)%N.
Proof.
  induction rs as [|[a b] rs IH]; intros lo hi H; [exact H|].
  destruct H as (H1 & H2 & H3). apply IH in H3. lia.
Qed.

(** From the first start on, the coloured ranges and their gaps make up the
    rest of the buffer. *)
Lemma output_colored_ranges formatted color ambient rs :
  forall lo a b rest,
    rs = (a, b) :: rest ->
    ordered_within lo rs (size formatted) ->
    output (colored_ranges formatted color ambient rs)
    = slice formatted a (size formatted - a).
Proof.
  induction rs as [|[a0 b0] rs IH]; intros lo a b rest E H; [discriminate|].
  injection E as -> -> ->.
  destruct H as (Hlo & Hab & Hrest).
  pose proof (ordered_within_le _ _ _ Hrest) as Hb.
  cbn [colored_ranges]. rewrite !output_app, output_colored by exact Hab.
  destruct rest as [|[a' b'] rest'].
  - cbn [colored_ranges]. rewrite output_uncolored by exact Hb.
    change (output []) with (@nil byte). rewrite app_nil_r.
    now apply slice_app.
  - rewrite (IH b a' b' rest' eq_refl Hrest).
    destruct Hrest as (Hba' & Hab' & Hrest').
    pose proof (ordered_within_le _ _ _ Hrest') as Hb'.
    rewrite output_uncolored by exact Hba'.
    rewrite (slice_app formatted) by lia.
    rewrite (slice_app formatted) by lia.
    reflexivity.
Qed.

Lemma output_colorized formatted color ambient rs :
  ordered_within 0 rs (size formatted) ->
  output (colorized formatted color ambient rs) = formatted.
Proof.
  intros H. destruct rs as [|[a b] rest].
  - cbn [colorized]. rewrite output_colored by exact H.
    rewrite N.sub_0_r. apply slice_all.
  - cbn [colorized]. rewrite output_app.
    rewrite (@output_colored_ranges formatted color ambient _ 0%N a b rest eq_refl H).
    destruct H as (H0 & Hab & Hrest).
    pose proof (ordered_within_le _ _ _ Hrest) as Hb.
    rewrite output_uncolored by exact H0.
    rewrite slice_app by lia.
    rewrite N.sub_0_r. apply slice_all.
Qed.

Lemma output_plain formatted : output (plain formatted) = formatted.
Proof. unfold plain, output. simpl. rewrite app_nil_r. apply slice_all. Qed.

(** ** The issued calls are the prescribed ones *)

Lemma print_range_calls_uncolored formatted a b :
  (b <= size formatted)%N -> (size formatted < 2 ^ 32)%N ->
  print_range_calls formatted a b = uncolored formatted a b.
Proof.
  intros Hb Hsz. unfold print_range_calls, uncolored.
  destruct (a <? b)%N; [|reflexivity].
  rewrite to_DWORD_small by lia. reflexivity.
Qed.

Lemma span_calls_colored formatted color ambient a b :
  (b <= size formatted)%N -> (size formatted < 2 ^ 32)%N ->
  span_calls formatted true color ambient a b = colored formatted color ambient a b.
Proof.
  intros Hb Hsz. unfold span_calls, colored.
  rewrite print_range_calls_uncolored by assumption.
  rewrite to_WORD_id by apply applied_is_WORD. reflexivity.
Qed.

Lemma loop_calls_prescribed formatted color ambient msg :
  (size formatted < 2 ^ 32)%N ->
  forall n i lo,
    (i + N.of_nat n = num_start_ranges msg)%N ->
    ordered_within lo (ranges_from msg n i) (size formatted) ->
    loop_calls formatted true color ambient msg n i
    = colored_ranges formatted color ambient (ranges_from msg n i).
Proof.
  intros Hsz. induction n as [|n IH]; intros i lo Hi H; [reflexivity|].
  cbn [loop_calls ranges_from colored_ranges].
  cbn [ranges_from ordered_within] in H. destruct H as (Hlo & Hab & Hrest).
  pose proof (ordered_within_le _ _ _ Hrest) as Hb.
  rewrite span_calls_colored by assumption.
  assert (Hi' : (i + 1 + N.of_nat n = num_start_ranges msg)%N)
    by (rewrite Nnat.Nat2N.inj_succ in Hi; lia).
  rewrite (IH (i + 1)%N _ Hi' Hrest).
  do 2 f_equal.
  destruct n as [|n].
  - cbn [ranges_from].
    destruct (N.ltb_spec (i + 1) (num_start_ranges msg)) as [Hlt|_];
      [simpl in Hi'; lia|].
    now apply print_range_calls_uncolored.
  - cbn [ranges_from] in Hrest |- *.
    destruct (N.ltb_spec (i + 1) (num_start_ranges msg)) as [_|Hge];
      [|rewrite Nnat.Nat2N.inj_succ in Hi'; lia].
    destruct Hrest as (_ & Hab' & Hrest').
    pose proof (ordered_within_le _ _ _ Hrest') as Hb'.
    apply print_range_calls_uncolored; lia.
Qed.

Lemma ranges_from_length msg n : forall i, length (ranges_from msg n i) = n.
Proof. induction n as [|n IH]; intros i; simpl; [reflexivity | now rewrite IH]. Qed.

Lemma uncolored_no_query formatted a b :
  filter is_buffer_info (uncolored formatted a b) = [].
Proof. unfold uncolored. now destruct (a <? b)%N. Qed.

Lemma uncolored_no_set formatted a b :
  filter is_set_attribute (uncolored formatted a b) = [].
Proof. unfold uncolored. now destruct (a <? b)%N. Qed.

(** One query and two attribute requests per range, none in the gaps. *)
Lemma colored_ranges_counts formatted color ambient rs :
  length (filter is_buffer_info (colored_ranges formatted color ambient rs))
  = length rs
  /\ length (filter is_set_attribute (colored_ranges formatted color ambient rs))
     = (2 * length rs)%nat.
Proof.
  induction rs as [|[a b] rs [IH1 IH2]]; [now split|].
  cbn [colored_ranges colored].
  repeat (rewrite ?filter_app, ?length_app, ?uncolored_no_query, ?uncolored_no_set;
          simpl).
  rewrite IH1, IH2. split; lia.
Qed.

Lemma uncolored_not_set formatted a b :
  forallb (fun c => negb (is_set_attribute c)) (uncolored formatted a b) = true.
Proof. unfold uncolored. now destruct (a <? b)%N. Qed.

(** ** The handle guard *)

Lemma valid_handle_guard h :
  valid_handle h ->
  (h =? nullptr)%Z || (h =? INVALID_HANDLE_VALUE)%Z = false.
Proof.
  intros [H1 H2]. apply orb_false_intro; now apply Z.eqb_neq.
Qed.

Lemma invalid_handle_guard h :
  h = nullptr \/ h = INVALID_HANDLE_VALUE ->
  (h =? nullptr)%Z || (h =? INVALID_HANDLE_VALUE)%Z = true.
Proof. intros [-> | ->]; reflexivity. Qed.


(** ** Attributes across a run of calls *)

Lemma replay_append cs w :
  wAttributes (replay cs w) = wAttributes w -> replay cs w = append_calls cs w.
Proof.
  intros H.
  destruct (replay_flags cs w) as (H1 & H2 & H3).
  pose proof (replay_calls cs w) as H4.
  unfold append_calls. destruct (replay cs w); simpl in *. congruence.
Qed.

Lemma restores_app ambient cs1 cs2 :
  restores ambient cs1 -> restores ambient cs2 -> restores ambient (cs1 ++ cs2).
Proof.
  intros H1 H2 w Hw. rewrite replay_app. apply H2, H1, Hw.
Qed.

Lemma restores_no_set ambient cs :
  forallb (fun c => negb (is_set_attribute c)) cs = true -> restores ambient cs.
Proof. intros H w Hw. now rewrite replay_no_set. Qed.

Lemma restores_print_range_calls ambient formatted a b :
  restores ambient (print_range_calls formatted a b).
Proof.
  apply restores_no_set. unfold print_range_calls. now destruct (a <? b)%N.
Qed.

Lemma restores_uncolored ambient formatted a b :
  restores ambient (uncolored formatted a b).
Proof. apply restores_no_set, uncolored_not_set. Qed.

Lemma restores_span_calls formatted color ambient a b :
  restores ambient (span_calls formatted true color ambient a b).
Proof.
  intros w Hw. rewrite span_attributes, Hw. now destruct (set_attribute_ok w).
Qed.

Lemma restores_colored formatted color ambient a b :
  restores ambient (colored formatted color ambient a b).
Proof.
  intros w Hw. subst ambient. unfold colored, uncolored.
  destruct w as [cm bi sa wa cs]; simpl.
  destruct (a <? b)%N, sa; reflexivity.
Qed.

Lemma restores_loop_calls formatted color ambient msg n :
  forall i, restores ambient (loop_calls formatted true color ambient msg n i).
Proof.
  induction n as [|n IH]; intros i; [now intros w Hw|].
  cbn [loop_calls].
  apply restores_app; [apply restores_span_calls|].
  apply restores_app; [apply restores_print_range_calls | apply IH].
Qed.

Lemma restores_colored_ranges formatted color ambient rs :
  restores ambient (colored_ranges formatted color ambient rs).
Proof.
  induction rs as [|[a b] rs IH]; [now intros w Hw|].
  cbn [colored_ranges].
  apply restores_app; [apply restores_colored|].
  apply restores_app; [apply restores_uncolored | apply IH].
Qed.

Lemma restores_colorized formatted color ambient rs :
  restores ambient (colorized formatted color ambient rs).
Proof.
  destruct rs as [|[a b] rest]; cbn [colorized].
  - apply restores_colored.
  - apply restores_app; [apply restores_uncolored | apply restores_colored_ranges].
Qed.

(** With a screen buffer that can be queried, the calls of [log] end with the
    attributes they started with. *)
Lemma restores_log_calls MAX_RANGES this msg ambient :
  restores ambient (log_calls MAX_RANGES this msg true ambient).
Proof.
  unfold log_calls.
  destruct (_ || _); [now intros w Hw|].
  apply restores_app; [now apply restores_no_set|].
  apply restores_app; [|now apply restores_no_set].
  destruct (negb (in_console_ this)); [now apply restores_no_set|].
  destruct (_ && _); [|now apply restores_no_set].
  destruct (0 <? _)%N.
  - apply restores_app; [apply restores_print_range_calls | apply restores_loop_calls].
  - apply restores_span_calls.
Qed.

(** ** What [log] issues *)

Lemma issued_replay {A} (m : M A) a cs w :
  m w = (a, replay cs w) -> issued m w = cs.
Proof.
  intros H. unfold issued. rewrite H. cbn [snd].
  rewrite replay_calls, skipn_app, skipn_all, Nat.sub_diag. reflexivity.
Qed.

Lemma issued_log MAX_RANGES this msg w :
  issued (log MAX_RANGES this msg) w
  = log_calls MAX_RANGES this msg (buffer_info_ok w) (to_WORD (wAttributes w)).
Proof. eapply issued_replay. apply log_run. Qed.

(** The write calls do not depend on the outcome of the query nor on the
    attributes in force. *)
Lemma span_calls_writes formatted ok color ambient a b :
  filter is_write (span_calls formatted ok color ambient a b)
  = print_range_calls formatted a b.
Proof.
  unfold span_calls, print_range_calls.
  destruct ok, (a <? b)%N; reflexivity.
Qed.

Lemma loop_calls_writes formatted ok ok' color ambient ambient' msg n :
  forall i,
    filter is_write (loop_calls formatted ok color ambient msg n i)
    = filter is_write (loop_calls formatted ok' color ambient' msg n i).
Proof.
  induction n as [|n IH]; intros i; [reflexivity|].
  cbn [loop_calls]. rewrite !filter_app, !span_calls_writes.
  now rewrite (IH (i + 1)%N).
Qed.

Lemma log_calls_writes MAX_RANGES this msg ok ok' ambient ambient' :
  filter is_write (log_calls MAX_RANGES this msg ok ambient)
  = filter is_write (log_calls MAX_RANGES this msg ok' ambient').
Proof.
  unfold log_calls.
  destruct (_ || _); [reflexivity|].
  destruct (negb (in_console_ this)); [reflexivity|].
  destruct (_ && _); [|reflexivity].
  rewrite !filter_app. f_equal. f_equal.
  destruct (0 <? _)%N.
  - rewrite !filter_app. f_equal. apply loop_calls_writes.
  - now rewrite !span_calls_writes.
Qed.

(** The attribute requests of [log]: the applied colour and the captured
    attributes when the query succeeds, white when it fails. *)
Lemma requests_print_range_calls allowed formatted a b :
  Forall (requests_only allowed) (print_range_calls formatted a b).
Proof.
  unfold print_range_calls. destruct (a <? b)%N; repeat constructor.
Qed.

Lemma requests_span_calls formatted color ambient a b :
  Forall (requests_only [applied color ambient; ambient])
         (span_calls formatted true color ambient a b)
  /\ Forall (requests_only [white]) (span_calls formatted false color ambient a b).
Proof.
  unfold span_calls. rewrite to_WORD_id by apply applied_is_WORD.
  split; cbn [app].
  - constructor; [exact I|]. constructor; [now left|].
    apply Forall_app. split; [apply requests_print_range_calls|].
    constructor; [right; now left | constructor].
  - constructor; [exact I|].
    apply Forall_app. split; [apply requests_print_range_calls|].
    constructor; [now left | constructor].
Qed.

Lemma requests_loop_calls formatted color ambient msg n :
  forall i,
    Forall (requests_only [applied color ambient; ambient])
           (loop_calls formatted true color ambient msg n i)
    /\ Forall (requests_only [white])
              (loop_calls formatted false color ambient msg n i).
Proof.
  induction n as [|n IH]; intros i; [split; constructor|].
  cbn [loop_calls]. destruct (IH (i + 1)%N) as [IH1 IH2].
  split; repeat (apply Forall_app; split);
    try apply requests_print_range_calls; try assumption;
    apply requests_span_calls.
Qed.

Lemma requests_log_calls MAX_RANGES this msg ambient :
  Forall (requests_only [applied (colors_ this (level msg)) ambient; ambient])
         (log_calls MAX_RANGES this msg true ambient)
  /\ Forall (requests_only [white]) (log_calls MAX_RANGES this msg false ambient).
Proof.
  unfold log_calls.
  destruct (_ || _); [split; constructor|].
  destruct (negb (in_console_ this)); [split; repeat constructor|].
  destruct (_ && _); [|split; repeat constructor].
  destruct (0 <? _)%N.
  - split; (constructor; [exact I|]); (constructor; [exact I|]);
      repeat (apply Forall_app; split);
      try apply requests_print_range_calls;
      try apply requests_loop_calls; repeat constructor.
  - split; (constructor; [exact I|]); (constructor; [exact I|]);
      repeat (apply Forall_app; split);
      try apply requests_span_calls; repeat constructor.
Qed.

(** ** The sample buffer of 2^32 bytes *)

Lemma size_huge : size huge = (2 ^ 32)%N.
Proof. unfold size, huge. rewrite repeat_length. apply Nnat.N2Nat.id. Qed.

Lemma huge_not_empty : huge <> [].
Proof. intros H. pose proof size_huge as E. rewrite H in E. discriminate E. Qed.

(** ** Worked examples *)

(** The range [2,5) of ten bytes: the payload is unchanged, the colour is
    applied once and the captured attributes are restored once. *)
Example log_one_range :
  log 3 (console_sink format_one_range) sample_msg console
  = (mk_log_msg level.err (bytes "disk full") 1 [2; 0; 0]%N 1 [5; 0; 0]%N,
     append_calls
       [E_lock; E_format sample_cleared;
        E_WriteConsoleA (bytes "0123456789") 0 2;
        E_GetConsoleScreenBufferInfo; E_SetConsoleTextAttribute 28;
        E_WriteConsoleA (bytes "0123456789") 2 3;
        E_SetConsoleTextAttribute 26;
        E_WriteConsoleA (bytes "0123456789") 5 5;
        E_unlock] console)
  /\ output (issued (log 3 (console_sink format_one_range) sample_msg) console)
     = bytes "0123456789".
Proof. split; vm_compute; reflexivity. Qed.

(** An empty range is not written. *)
Example print_range_empty :
  print_range_ (console_sink format_unmarked) (bytes "0123456789") 4 4 console
  = (tt, console)
  /\ print_range_ (console_sink format_unmarked) (bytes "0123456789") 7 4 console
     = (tt, console).
Proof. split; reflexivity. Qed.

(** The default colours, and [automatic] resolved on a redirected device. *)
Example wincolor_sink_ctor_redirected (pf : option string -> formatter) raw :
  let this := fst (wincolor_sink_ctor pf raw sample_handle automatic redirected) in
  should_do_colors_ this = false
  /\ in_console_ this = in_console_ raw
  /\ map (colors_ this)
         [level.trace; level.debug; level.info; level.warn; level.err;
          level.critical; level.off]
     = [7; 3; 2; 14; 12; 79; 0]%Z.
Proof. cbv zeta. repeat split. Qed.

(** * The claims *)

(** ** Guards of [log] *)

(** C4. On a null or invalid handle [log] is a no-op: the message and the
    world come back as they were, so no lock is taken, the formatter is not
    called and nothing is written. *)
Theorem log_invalid_handle_noop MAX_RANGES this msg w :
  out_handle_ this = nullptr \/ out_handle_ this = INVALID_HANDLE_VALUE ->
  log MAX_RANGES this msg w = (msg, w)
  /\ issued (log MAX_RANGES this msg) w = [].
Proof.
  intros H. apply invalid_handle_guard in H.
  assert (E : log MAX_RANGES this msg w = (msg, w)).
  { unfold log. now rewrite H. }
  split; [exact E|].
  unfold issued. rewrite E. apply skipn_all.
Qed.

(** A sink built on a null handle drops the message. *)
Lemma log_invalid_handle_noop_witness :
  (out_handle_ null_sink = nullptr \/ out_handle_ null_sink = INVALID_HANDLE_VALUE)
  /\ log 3 null_sink sample_msg console = (sample_msg, console)
  /\ issued (log 3 null_sink sample_msg) console = [].
Proof.
  split; [left; reflexivity|].
  apply (@log_invalid_handle_noop 3 null_sink sample_msg console).
  left; reflexivity.
Defined.

(** ** Printing a range *)

(** C7 (amended). [print_range_] issues no call when [end <= start]; it
    issues exactly one [WriteConsoleA] when [end > start]; so a write is
    issued if and only if [end > start].  The length it passes is
    [end - start] cut to 32 bits: when [end - start] is below 2^32 the write
    has the positive length [end - start], so that no write of length zero
    is attempted. *)
Theorem print_range_writes_iff this formatted start end_ w :
  ((end_ <= start)%N -> print_range_ this formatted start end_ w = (tt, w))
  /\ ((start < end_)%N ->
      print_range_ this formatted start end_ w
      = (tt, record_call
               (E_WriteConsoleA formatted start (to_DWORD (end_ - start))) w))
  /\ ((exists c, In c (issued (print_range_ this formatted start end_) w)
                 /\ is_write c = true)
      <-> (start < end_)%N)
  /\ ((end_ - start < 2 ^ 32)%N ->
      ((start < end_)%N ->
       print_range_ this formatted start end_ w
       = (tt, record_call (E_WriteConsoleA formatted start (end_ - start)) w))
      /\ Forall positive_length (issued (print_range_ this formatted start end_) w)).
Proof.
  unfold issued, print_range_.
  destruct (N.ltb_spec start end_) as [Hlt|Hge].
  - split; [intros H; lia|]. split; [reflexivity|].
    split.
    + split; [intros _; exact Hlt|]. intros _.
      exists (E_WriteConsoleA formatted start (to_DWORD (end_ - start))).
      split; [|reflexivity].
      unfold WriteConsoleA, emit, record_call. cbn [snd calls].
      rewrite skipn_app, skipn_all, Nat.sub_diag. now left.
    + intros Hsz. rewrite (to_DWORD_small Hsz). split; [reflexivity|].
      unfold WriteConsoleA, emit, record_call. cbn [snd calls].
      rewrite skipn_app, skipn_all, Nat.sub_diag.
      repeat constructor. cbn [positive_length]. lia.
  - split; [reflexivity|]. split; [intros H; lia|].
    split.
    + split; [|intros H; lia].
      intros (c & Hin & _). unfold ret in Hin. cbn [snd] in Hin.
      rewrite skipn_all in Hin. destruct Hin.
    + intros _. split; [intros H; lia|].
      unfold ret. cbn [snd]. rewrite skipn_all. constructor.
Qed.

(** The range [4,7) of ten bytes is written with length 3; the empty range
    [4,4) is not written. *)
Lemma print_range_writes_iff_witness :
  (7 - 4 < 2 ^ 32)%N
  /\ print_range_ (console_sink format_unmarked) (bytes "0123456789") 4 7 console
     = (tt, record_call (E_WriteConsoleA (bytes "0123456789") 4 3) console)
  /\ Forall positive_length
            (issued (print_range_ (console_sink format_unmarked)
                                  (bytes "0123456789") 4 7) console)
  /\ print_range_ (console_sink format_unmarked) (bytes "0123456789") 4 4 console
     = (tt, console).
Proof.
  assert (Hsz : (7 - 4 < 2 ^ 32)%N) by reflexivity.
  assert (Hlt : (4 < 7)%N) by reflexivity.
  assert (Hle : (4 <= 4)%N) by apply N.le_refl.
  pose proof (@print_range_writes_iff (console_sink format_unmarked)
                (bytes "0123456789") 4 7 console) as (_ & _ & _ & H47).
  pose proof (@print_range_writes_iff (console_sink format_unmarked)
                (bytes "0123456789") 4 4 console) as (H44 & _).
  destruct (H47 Hsz) as [Hw Hp].
  split; [exact Hsz|]. split; [exact (Hw Hlt)|]. split; [exact Hp|].
  exact (H44 Hle).
Defined.

(** C7 fails as stated when [end - start] is a multiple of 2^32: for the
    range [0, 2^32) of a buffer of 2^32 bytes, [end > start] and the one
    [WriteConsoleA] issued has length 0. *)
Lemma print_range_writes_length_zero :
  (0 < 2 ^ 32)%N
  /\ size huge = (2 ^ 32)%N
  /\ print_range_ (console_sink format_unmarked) huge 0 (2 ^ 32) console
     = (tt, record_call (E_WriteConsoleA huge 0 0) console)
  /\ issued (print_range_ (console_sink format_unmarked) huge 0 (2 ^ 32)) console
     = [E_WriteConsoleA huge 0 0].
Proof.
  split; [reflexivity|]. split; [exact size_huge|].
  split; reflexivity.
Qed.

(** ** Colour mode *)

Lemma set_color_mode_impl_run mode this w :
  set_color_mode_impl mode this w
  = (mk_sink (out_handle_ this) (formatter_ this) (colors_ this) (in_console_ this)
             match mode with
             | automatic => console_mode_ok w
             | always => true
             | never => false
             end,
     append_calls match mode with automatic => [E_GetConsoleMode] | _ => [] end w).
Proof.
  destruct mode; try reflexivity;
    unfold set_color_mode_impl, ret, append_calls, with_should_do_colors;
    rewrite app_nil_r; now destruct w.
Qed.

Lemma set_color_mode_run mode this w :
  set_color_mode mode this w
  = (mk_sink (out_handle_ this) (formatter_ this) (colors_ this) (in_console_ this)
             match mode with
             | automatic => console_mode_ok w
             | always => true
             | never => false
             end,
     append_calls
       ([E_lock] ++ match mode with automatic => [E_GetConsoleMode] | _ => [] end
                 ++ [E_unlock]) w).
Proof.
  unfold set_color_mode, bind, lock_guard, unlock_guard, emit, ret.
  destruct mode; unfold set_color_mode_impl, bind, ret, GetConsoleMode,
    record_call, append_calls, with_should_do_colors; cbn;
    now rewrite <- ?app_assoc.
Qed.

(** C10. [set_color_mode_impl], and [set_color_mode] around it under the
    lock, assign [should_do_colors_] only: from the console-mode probe for
    [automatic], [true] for [always], [false] for [never].  Handle,
    formatter, colours and [in_console_] are those of the sink before, and
    the attributes of the device are untouched.  No other method of the file
    assigns [in_console_] either; the constructors leave it as they find it. *)
Theorem set_color_mode_assigns_should_do_colors_only
        (pattern_formatter : option string -> formatter)
        (GetStdHandle : Z -> HANDLE) mode this w :
  let resolved :=
    match mode with
    | automatic => console_mode_ok w
    | always => true
    | never => false
    end in
  let probe :=
    match mode with
    | automatic => [E_GetConsoleMode]
    | _ => []
    end in
  let this' :=
    mk_sink (out_handle_ this) (formatter_ this) (colors_ this)
            (in_console_ this) resolved in
  set_color_mode_impl mode this w = (this', append_calls probe w)
  /\ set_color_mode mode this w
     = (this', append_calls ([E_lock] ++ probe ++ [E_unlock]) w)
  /\ in_console_ (fst (set_color_mode mode this w)) = in_console_ this
  /\ (forall lvl color w0,
        in_console_ (fst (set_color lvl color this w0)) = in_console_ this)
  /\ (forall pattern w0,
        in_console_ (fst (set_pattern pattern_formatter pattern this w0))
        = in_console_ this)
  /\ (forall f w0, in_console_ (fst (set_formatter f this w0)) = in_console_ this)
  /\ (forall w0, in_console_ (fst (flush this w0)) = in_console_ this)
  /\ (forall raw out_handle mode0 w0,
        in_console_ (fst (wincolor_sink_ctor pattern_formatter raw out_handle mode0 w0))
        = in_console_ raw)
  /\ (forall raw mode0 w0,
        in_console_
          (fst (wincolor_stdout_sink_ctor pattern_formatter GetStdHandle raw mode0 w0))
        = in_console_ raw)
  /\ (forall raw mode0 w0,
        in_console_
          (fst (wincolor_stderr_sink_ctor pattern_formatter GetStdHandle raw mode0 w0))
        = in_console_ raw).
Proof.
  cbv zeta.
  split; [apply set_color_mode_impl_run|].
  split; [apply set_color_mode_run|].
  split; [now rewrite set_color_mode_run|].
  repeat split; intros; try reflexivity; destruct mode0; reflexivity.
Qed.

(** ** Range bookkeeping *)

Lemma print_range_calls_no_format formatted a b :
  filter is_format (print_range_calls formatted a b) = [].
Proof. unfold print_range_calls. now destruct (a <? b)%N. Qed.

Lemma span_calls_no_format formatted ok color ambient a b :
  filter is_format (span_calls formatted ok color ambient a b) = [].
Proof.
  unfold span_calls, print_range_calls. now destruct ok, (a <? b)%N.
Qed.

Lemma loop_calls_no_format formatted ok color ambient msg n :
  forall i, filter is_format (loop_calls formatted ok color ambient msg n i) = [].
Proof.
  induction n as [|n IH]; intros i; [reflexivity|].
  cbn [loop_calls].
  now rewrite !filter_app, span_calls_no_format, print_range_calls_no_format, IH.
Qed.

Lemma log_calls_format MAX_RANGES this msg ok ambient :
  valid_handle (out_handle_ this) ->
  firstn 2 (log_calls MAX_RANGES this msg ok ambient)
  = [E_lock; E_format (cleared MAX_RANGES msg)]
  /\ filter is_format (log_calls MAX_RANGES this msg ok ambient)
     = [E_format (cleared MAX_RANGES msg)].
Proof.
  intros Hh. unfold log_calls. rewrite (valid_handle_guard Hh).
  split; [reflexivity|].
  cbn [app filter is_format]. f_equal.
  rewrite filter_app. cbn [filter is_format]. rewrite app_nil_r.
  destruct (negb (in_console_ this)); [reflexivity|].
  destruct (_ && _); [|reflexivity].
  destruct (0 <? _)%N.
  - now rewrite filter_app, print_range_calls_no_format, loop_calls_no_format.
  - apply span_calls_no_format.
Qed.

Lemma cleared_same MAX_RANGES msg msg0 :
  level msg0 = level msg -> payload msg0 = payload msg ->
  cleared MAX_RANGES msg0 = cleared MAX_RANGES msg.
Proof. intros Hl Hp. unfold cleared. now rewrite Hl, Hp. Qed.

(** C8. Past the handle guard, the first thing [log] does after taking the
    lock is to call the formatter, once, on a message whose two counts are 0
    and whose two arrays are zeroed; whatever the range fields held on entry
    has no influence on the call: two messages with the same level and
    payload give the same result and leave the same world. *)
Theorem log_resets_ranges_before_format MAX_RANGES this msg w :
  valid_handle (out_handle_ this) ->
  firstn 2 (issued (log MAX_RANGES this msg) w)
  = [E_lock; E_format (cleared MAX_RANGES msg)]
  /\ filter is_format (issued (log MAX_RANGES this msg) w)
     = [E_format (cleared MAX_RANGES msg)]
  /\ num_start_ranges (cleared MAX_RANGES msg) = 0%N
  /\ num_end_ranges (cleared MAX_RANGES msg) = 0%N
  /\ color_ranges_start (cleared MAX_RANGES msg) = repeat 0%N MAX_RANGES
  /\ color_ranges_end (cleared MAX_RANGES msg) = repeat 0%N MAX_RANGES
  /\ (forall msg0,
        level msg0 = level msg -> payload msg0 = payload msg ->
        log MAX_RANGES this msg0 w = log MAX_RANGES this msg w).
Proof.
  intros Hh. rewrite issued_log.
  destruct (log_calls_format MAX_RANGES this msg (buffer_info_ok w)
                             (to_WORD (wAttributes w)) Hh) as [H1 H2].
  repeat split; try assumption.
  intros msg0 Hl Hp. rewrite !log_run, (valid_handle_guard Hh).
  unfold log_calls, annotated, store_ranges.
  now rewrite (cleared_same MAX_RANGES msg msg0 Hl Hp), Hl, Hp.
Qed.

(** A message that comes in with seven starts and four ends reaches the
    formatter with none. *)
Lemma log_resets_ranges_before_format_witness :
  valid_handle (out_handle_ (console_sink format_unmarked))
  /\ firstn 2 (issued (log 3 (console_sink format_unmarked) sample_msg) console)
     = [E_lock; E_format sample_cleared]
  /\ filter is_format (issued (log 3 (console_sink format_unmarked) sample_msg) console)
     = [E_format sample_cleared]
  /\ num_start_ranges sample_cleared = 0%N
  /\ num_end_ranges sample_cleared = 0%N
  /\ color_ranges_start sample_cleared = [0; 0; 0]%N
  /\ color_ranges_end sample_cleared = [0; 0; 0]%N
  /\ (forall msg0,
        level msg0 = level sample_msg -> payload msg0 = payload sample_msg ->
        log 3 (console_sink format_unmarked) msg0 console
        = log 3 (console_sink format_unmarked) sample_msg console).
Proof.
  assert (Hh : valid_handle (out_handle_ (console_sink format_unmarked)))
    by (split; discriminate).
  split; [exact Hh|].
  exact (@log_resets_ranges_before_format 3 (console_sink format_unmarked)
           sample_msg console Hh).
Defined.

(** ** Plain output *)

Lemma issued_append {A} (m : M A) a cs w :
  m w = (a, append_calls cs w) -> issued m w = cs.
Proof.
  intros H. unfold issued. rewrite H. cbn [snd append_calls calls].
  rewrite skipn_app, skipn_all, Nat.sub_diag. reflexivity.
Qed.

(** The branches of [log] that call [write_to_file_]. *)
Lemma log_plain MAX_RANGES this msg w :
  valid_handle (out_handle_ this) ->
  in_console_ this = false
  \/ should_do_colors_ this = false
  \/ num_start_ranges (annotated MAX_RANGES this msg)
     <> num_end_ranges (annotated MAX_RANGES this msg) ->
  log MAX_RANGES this msg w
  = (annotated MAX_RANGES this msg,
     append_calls
       [E_lock; E_format (cleared MAX_RANGES msg);
        E_WriteFile (formatted_by MAX_RANGES this msg)
                    (to_DWORD (size (formatted_by MAX_RANGES this msg)));
        E_unlock] w).
Proof.
  intros Hh Hc. rewrite log_run, (valid_handle_guard Hh). f_equal.
  unfold log_calls. rewrite (valid_handle_guard Hh).
  fold (annotated MAX_RANGES this msg). fold (formatted_by MAX_RANGES this msg).
  assert (E : (if negb (in_console_ this)
               then write_to_file_calls (formatted_by MAX_RANGES this msg)
               else
                 if should_do_colors_ this
                    && (num_start_ranges (annotated MAX_RANGES this msg)
                        =? num_end_ranges (annotated MAX_RANGES this msg))%N
                 then
                   if (0 <? num_start_ranges (annotated MAX_RANGES this msg))%N
                   then
                     print_range_calls (formatted_by MAX_RANGES this msg) 0
                       (at_ (color_ranges_start (annotated MAX_RANGES this msg)) 0)
                     ++ loop_calls (formatted_by MAX_RANGES this msg)
                          (buffer_info_ok w) (colors_ this (level msg))
                          (to_WORD (wAttributes w)) (annotated MAX_RANGES this msg)
                          (N.to_nat (num_start_ranges (annotated MAX_RANGES this msg))) 0
                   else
                     span_calls (formatted_by MAX_RANGES this msg) (buffer_info_ok w)
                       (colors_ this (level msg)) (to_WORD (wAttributes w)) 0
                       (size (formatted_by MAX_RANGES this msg))
                 else write_to_file_calls (formatted_by MAX_RANGES this msg))
              = write_to_file_calls (formatted_by MAX_RANGES this msg)).
  { destruct Hc as [Hc | [Hc | Hc]].
    - now rewrite Hc.
    - rewrite Hc. now destruct (negb (in_console_ this)).
    - apply N.eqb_neq in Hc. rewrite Hc, Bool.andb_false_r.
      now destruct (negb (in_console_ this)). }
  rewrite E. now apply replay_no_set.
Qed.

(** C2 (amended). On a console, when colouring is off or the formatter left
    different numbers of range starts and ends, and the buffer is shorter
    than 2^32 bytes, [log] issues one [WriteFile] of the whole buffer between
    taking and releasing the lock, no attribute query and no attribute
    request; it returns normally whatever the flag [should_do_colors_] is in
    the second case. *)
Theorem log_plain_when_colors_off_or_counts_differ MAX_RANGES this msg w :
  valid_handle (out_handle_ this) ->
  in_console_ this = true ->
  should_do_colors_ this = false
  \/ num_start_ranges (annotated MAX_RANGES this msg)
     <> num_end_ranges (annotated MAX_RANGES this msg) ->
  (size (formatted_by MAX_RANGES this msg) < 2 ^ 32)%N ->
  log MAX_RANGES this msg w
  = (annotated MAX_RANGES this msg,
     append_calls ([E_lock; E_format (cleared MAX_RANGES msg)]
                     ++ plain (formatted_by MAX_RANGES this msg)
                     ++ [E_unlock]) w)
  /\ output (plain (formatted_by MAX_RANGES this msg))
     = formatted_by MAX_RANGES this msg
  /\ filter is_write (issued (log MAX_RANGES this msg) w)
     = plain (formatted_by MAX_RANGES this msg)
  /\ filter is_set_attribute (issued (log MAX_RANGES this msg) w) = []
  /\ filter is_buffer_info (issued (log MAX_RANGES this msg) w) = [].
Proof.
  intros Hh _ Hc Hsz.
  assert (E : log MAX_RANGES this msg w
              = (annotated MAX_RANGES this msg,
                 append_calls ([E_lock; E_format (cleared MAX_RANGES msg)]
                                 ++ plain (formatted_by MAX_RANGES this msg)
                                 ++ [E_unlock]) w)).
  { rewrite log_plain by (assumption || now right).
    now rewrite (to_DWORD_small Hsz). }
  split; [exact E|]. split; [apply output_plain|].
  rewrite (issued_append _ E). now repeat split.
Qed.

(** One range start and no range end: the ten bytes go out plain although
    colouring is on. *)
Lemma log_plain_when_colors_off_or_counts_differ_witness :
  valid_handle (out_handle_ (console_sink format_unbalanced))
  /\ in_console_ (console_sink format_unbalanced) = true
  /\ (should_do_colors_ (console_sink format_unbalanced) = false
      \/ num_start_ranges (annotated 3 (console_sink format_unbalanced) sample_msg)
         <> num_end_ranges (annotated 3 (console_sink format_unbalanced) sample_msg))
  /\ (size (formatted_by 3 (console_sink format_unbalanced) sample_msg) < 2 ^ 32)%N
  /\ log 3 (console_sink format_unbalanced) sample_msg console
     = (mk_log_msg level.err (bytes "disk full") 1 [2; 0; 0]%N 0 [0; 0; 0]%N,
        append_calls [E_lock; E_format sample_cleared;
                      E_WriteFile (bytes "0123456789") 10; E_unlock] console)
  /\ output (plain (bytes "0123456789")) = bytes "0123456789"
  /\ filter is_write (issued (log 3 (console_sink format_unbalanced) sample_msg) console)
     = [E_WriteFile (bytes "0123456789") 10]
  /\ filter is_set_attribute
       (issued (log 3 (console_sink format_unbalanced) sample_msg) console) = []
  /\ filter is_buffer_info
       (issued (log 3 (console_sink format_unbalanced) sample_msg) console) = [].
Proof.
  assert (Hh : valid_handle (out_handle_ (console_sink format_unbalanced)))
    by (split; discriminate).
  assert (Hc : should_do_colors_ (console_sink format_unbalanced) = false
               \/ num_start_ranges (annotated 3 (console_sink format_unbalanced) sample_msg)
                  <> num_end_ranges (annotated 3 (console_sink format_unbalanced) sample_msg))
    by (right; discriminate).
  assert (Hsz : (size (formatted_by 3 (console_sink format_unbalanced) sample_msg)
                 < 2 ^ 32)%N) by reflexivity.
  split; [exact Hh|]. split; [reflexivity|]. split; [exact Hc|]. split; [exact Hsz|].
  exact (@log_plain_when_colors_off_or_counts_differ
           3 (console_sink format_unbalanced) sample_msg console
           Hh eq_refl Hc Hsz).
Defined.

(** C2 fails as stated on a buffer of 2^32 bytes: the length handed to
    [WriteFile] is the buffer size cut to 32 bits, here 0, so the one write
    carries no byte of the buffer. *)
Lemma log_plain_when_colors_off_truncates :
  valid_handle (out_handle_ (plain_console_sink format_huge_unmarked))
  /\ in_console_ (plain_console_sink format_huge_unmarked) = true
  /\ should_do_colors_ (plain_console_sink format_huge_unmarked) = false
  /\ formatted_by 3 (plain_console_sink format_huge_unmarked) sample_msg = huge
  /\ size huge = (2 ^ 32)%N
  /\ issued (log 3 (plain_console_sink format_huge_unmarked) sample_msg) console
     = [E_lock; E_format sample_cleared; E_WriteFile huge 0; E_unlock]
  /\ output (issued (log 3 (plain_console_sink format_huge_unmarked) sample_msg)
                    console) = []
  /\ formatted_by 3 (plain_console_sink format_huge_unmarked) sample_msg <> [].
Proof.
  assert (E : issued (log 3 (plain_console_sink format_huge_unmarked) sample_msg)
                     console
              = [E_lock; E_format sample_cleared; E_WriteFile huge 0; E_unlock]).
  { eapply issued_append.
    rewrite log_plain; [|split; discriminate|right; left; reflexivity].
    change (formatted_by 3 (plain_console_sink format_huge_unmarked) sample_msg)
      with huge.
    rewrite size_huge. reflexivity. }
  split; [split; discriminate|].
  do 3 (split; [reflexivity|]).
  split; [exact size_huge|]. split; [exact E|].
  split; [now rewrite E | exact huge_not_empty].
Qed.

(** C3 (amended). On a device that is not a console, and with a buffer
    shorter than 2^32 bytes, [log] issues one [WriteFile] of the whole buffer
    and nothing else between taking and releasing the lock, whatever
    [should_do_colors_] and the ranges are; resolving any colour mode first
    changes nothing of this. *)
Theorem log_plain_when_not_in_console MAX_RANGES this msg w :
  valid_handle (out_handle_ this) ->
  in_console_ this = false ->
  (size (formatted_by MAX_RANGES this msg) < 2 ^ 32)%N ->
  log MAX_RANGES this msg w
  = (annotated MAX_RANGES this msg,
     append_calls ([E_lock; E_format (cleared MAX_RANGES msg)]
                     ++ plain (formatted_by MAX_RANGES this msg)
                     ++ [E_unlock]) w)
  /\ output (plain (formatted_by MAX_RANGES this msg))
     = formatted_by MAX_RANGES this msg
  /\ filter is_set_attribute (issued (log MAX_RANGES this msg) w) = []
  /\ filter is_buffer_info (issued (log MAX_RANGES this msg) w) = []
  /\ (forall mode w0,
        log MAX_RANGES (fst (set_color_mode mode this w0)) msg w
        = log MAX_RANGES this msg w).
Proof.
  intros Hh Hc Hsz.
  assert (E : log MAX_RANGES this msg w
              = (annotated MAX_RANGES this msg,
                 append_calls ([E_lock; E_format (cleared MAX_RANGES msg)]
                                 ++ plain (formatted_by MAX_RANGES this msg)
                                 ++ [E_unlock]) w)).
  { rewrite log_plain by (assumption || now left).
    now rewrite (to_DWORD_small Hsz). }
  split; [exact E|]. split; [apply output_plain|].
  rewrite (issued_append _ E). do 2 (split; [reflexivity|]).
  intros mode w0. rewrite set_color_mode_run. cbn [fst].
  rewrite !log_plain by (assumption || now left). reflexivity.
Qed.

(** A redirected device with colouring on and two well-formed ranges: the ten
    bytes go out plain. *)
Lemma log_plain_when_not_in_console_witness :
  valid_handle (out_handle_ (file_sink format_two_ranges))
  /\ in_console_ (file_sink format_two_ranges) = false
  /\ (size (formatted_by 3 (file_sink format_two_ranges) sample_msg) < 2 ^ 32)%N
  /\ log 3 (file_sink format_two_ranges) sample_msg console
     = (mk_log_msg level.err (bytes "disk full") 2 [0; 5; 0]%N 2 [3; 8; 0]%N,
        append_calls [E_lock; E_format sample_cleared;
                      E_WriteFile (bytes "0123456789") 10; E_unlock] console)
  /\ output (plain (bytes "0123456789")) = bytes "0123456789"
  /\ filter is_set_attribute
       (issued (log 3 (file_sink format_two_ranges) sample_msg) console) = []
  /\ filter is_buffer_info
       (issued (log 3 (file_sink format_two_ranges) sample_msg) console) = []
  /\ (forall mode w0,
        log 3 (fst (set_color_mode mode (file_sink format_two_ranges) w0))
            sample_msg console
        = log 3 (file_sink format_two_ranges) sample_msg console).
Proof.
  assert (Hh : valid_handle (out_handle_ (file_sink format_two_ranges)))
    by (split; discriminate).
  assert (Hsz : (size (formatted_by 3 (file_sink format_two_ranges) sample_msg)
                 < 2 ^ 32)%N) by reflexivity.
  split; [exact Hh|]. split; [reflexivity|]. split; [exact Hsz|].
  exact (@log_plain_when_not_in_console
           3 (file_sink format_two_ranges) sample_msg console Hh eq_refl Hsz).
Defined.

(** C3 fails as stated on a buffer of 2^32 bytes, for the same reason as C2:
    the single [WriteFile] is issued with length 0. *)
Lemma log_plain_when_not_in_console_truncates :
  valid_handle (out_handle_ (file_sink format_huge_unmarked))
  /\ in_console_ (file_sink format_huge_unmarked) = false
  /\ formatted_by 3 (file_sink format_huge_unmarked) sample_msg = huge
  /\ size huge = (2 ^ 32)%N
  /\ issued (log 3 (file_sink format_huge_unmarked) sample_msg) console
     = [E_lock; E_format sample_cleared; E_WriteFile huge 0; E_unlock]
  /\ output (issued (log 3 (file_sink format_huge_unmarked) sample_msg) console) = []
  /\ formatted_by 3 (file_sink format_huge_unmarked) sample_msg <> [].
Proof.
  assert (E : issued (log 3 (file_sink format_huge_unmarked) sample_msg) console
              = [E_lock; E_format sample_cleared; E_WriteFile huge 0; E_unlock]).
  { eapply issued_append.
    rewrite log_plain; [|split; discriminate|left; reflexivity].
    change (formatted_by 3 (file_sink format_huge_unmarked) sample_msg) with huge.
    rewrite size_huge. reflexivity. }
  split; [split; discriminate|].
  do 2 (split; [reflexivity|]).
  split; [exact size_huge|]. split; [exact E|].
  split; [now rewrite E | exact huge_not_empty].
Qed.

(** ** Coloured output *)

(** The colouring branches of [log], as issued. *)
Lemma log_calls_colorize MAX_RANGES this msg ok ambient :
  valid_handle (out_handle_ this) ->
  in_console_ this = true ->
  should_do_colors_ this = true ->
  num_start_ranges (annotated MAX_RANGES this msg)
  = num_end_ranges (annotated MAX_RANGES this msg) ->
  log_calls MAX_RANGES this msg ok ambient
  = [E_lock; E_format (cleared MAX_RANGES msg)]
      ++ (if (0 <? num_start_ranges (annotated MAX_RANGES this msg))%N then
            print_range_calls (formatted_by MAX_RANGES this msg) 0
              (at_ (color_ranges_start (annotated MAX_RANGES this msg)) 0)
            ++ loop_calls (formatted_by MAX_RANGES this msg) ok
                 (colors_ this (level msg)) ambient (annotated MAX_RANGES this msg)
                 (N.to_nat (num_start_ranges (annotated MAX_RANGES this msg))) 0
          else
            span_calls (formatted_by MAX_RANGES this msg) ok
              (colors_ this (level msg)) ambient 0
              (size (formatted_by MAX_RANGES this msg)))
      ++ [E_unlock].
Proof.
  intros Hh Hc Hs Hn. unfold log_calls.
  rewrite (valid_handle_guard Hh), Hc, Hs.
  fold (annotated MAX_RANGES this msg). fold (formatted_by MAX_RANGES this msg).
  rewrite Hn, N.eqb_refl. reflexivity.
Qed.

(** When the calls restore the attributes, the world after [log] is the
    world before with the calls appended. *)
Lemma log_append MAX_RANGES this msg w cs :
  valid_handle (out_handle_ this) ->
  is_WORD (wAttributes w) ->
  log_calls MAX_RANGES this msg (buffer_info_ok w) (wAttributes w) = cs ->
  restores (wAttributes w) cs ->
  log MAX_RANGES this msg w = (annotated MAX_RANGES this msg, append_calls cs w).
Proof.
  intros Hh HW Hcs Hr.
  rewrite log_run, (valid_handle_guard Hh), (to_WORD_id HW), Hcs.
  f_equal. apply replay_append. now apply Hr.
Qed.

(** C6 (amended). On a console, with no range after formatting and a buffer
    shorter than 2^32 bytes: when colouring is on and the screen buffer can
    be queried, [log] queries the attributes, applies the level colour,
    writes the whole buffer in one [WriteConsoleA] (none for an empty
    buffer) and restores the attributes it captured: one application, one
    restoration, and the bytes written are the buffer.  When colouring is
    off, the whole buffer goes out in one plain [WriteFile].  (The attributes
    of the device are a [WORD], as their type says.) *)
Theorem log_zero_ranges MAX_RANGES this msg w :
  valid_handle (out_handle_ this) ->
  in_console_ this = true ->
  num_start_ranges (annotated MAX_RANGES this msg) = 0%N ->
  num_end_ranges (annotated MAX_RANGES this msg) = 0%N ->
  (size (formatted_by MAX_RANGES this msg) < 2 ^ 32)%N ->
  (should_do_colors_ this = true ->
   buffer_info_ok w = true ->
   is_WORD (wAttributes w) ->
   log MAX_RANGES this msg w
   = (annotated MAX_RANGES this msg,
      append_calls
        ([E_lock; E_format (cleared MAX_RANGES msg)]
           ++ colored (formatted_by MAX_RANGES this msg) (colors_ this (level msg))
                      (wAttributes w) 0 (size (formatted_by MAX_RANGES this msg))
           ++ [E_unlock]) w)
   /\ output (colored (formatted_by MAX_RANGES this msg) (colors_ this (level msg))
                      (wAttributes w) 0 (size (formatted_by MAX_RANGES this msg)))
      = formatted_by MAX_RANGES this msg
   /\ filter is_set_attribute (issued (log MAX_RANGES this msg) w)
      = [E_SetConsoleTextAttribute (applied (colors_ this (level msg)) (wAttributes w));
         E_SetConsoleTextAttribute (wAttributes w)]
   /\ wAttributes (snd (log MAX_RANGES this msg w)) = wAttributes w)
  /\ (should_do_colors_ this = false ->
      log MAX_RANGES this msg w
      = (annotated MAX_RANGES this msg,
         append_calls ([E_lock; E_format (cleared MAX_RANGES msg)]
                         ++ plain (formatted_by MAX_RANGES this msg)
                         ++ [E_unlock]) w)
      /\ output (plain (formatted_by MAX_RANGES this msg))
         = formatted_by MAX_RANGES this msg).
Proof.
  intros Hh Hc Hns Hne Hsz. split.
  - intros Hs Hok HW.
    assert (E : log MAX_RANGES this msg w
                = (annotated MAX_RANGES this msg,
                   append_calls
                     ([E_lock; E_format (cleared MAX_RANGES msg)]
                        ++ colored (formatted_by MAX_RANGES this msg)
                             (colors_ this (level msg)) (wAttributes w) 0
                             (size (formatted_by MAX_RANGES this msg))
                        ++ [E_unlock]) w)).
    { apply log_append; try assumption.
      - rewrite log_calls_colorize by (assumption || congruence).
        rewrite Hns, Hok. cbn [N.ltb N.compare].
        rewrite span_calls_colored by (assumption || apply N.le_refl). reflexivity.
      - apply restores_app; [now apply restores_no_set|].
        apply restores_app; [apply restores_colored | now apply restores_no_set]. }
    split; [exact E|].
    split; [rewrite output_colored by apply N.le_0_l;
            rewrite N.sub_0_r; apply slice_all|].
    split; [|now rewrite E].
    rewrite (issued_append _ E). unfold colored.
    rewrite !filter_app, uncolored_no_set. reflexivity.
  - intros Hs. split; [|apply output_plain].
    rewrite log_plain by (assumption || (right; now left)).
    now rewrite (to_DWORD_small Hsz).
Qed.

(** Ten unmarked bytes on a console: one coloured span when colouring is on,
    one plain write when it is off. *)
Lemma log_zero_ranges_witness :
  valid_handle (out_handle_ (console_sink format_unmarked))
  /\ in_console_ (console_sink format_unmarked) = true
  /\ num_start_ranges (annotated 3 (console_sink format_unmarked) sample_msg) = 0%N
  /\ num_end_ranges (annotated 3 (console_sink format_unmarked) sample_msg) = 0%N
  /\ (size (formatted_by 3 (console_sink format_unmarked) sample_msg) < 2 ^ 32)%N
  /\ is_WORD (wAttributes console)
  /\ log 3 (console_sink format_unmarked) sample_msg console
     = (mk_log_msg level.err (bytes "disk full") 0 [0; 0; 0]%N 0 [0; 0; 0]%N,
        append_calls
          [E_lock; E_format sample_cleared;
           E_GetConsoleScreenBufferInfo; E_SetConsoleTextAttribute 28;
           E_WriteConsoleA (bytes "0123456789") 0 10;
           E_SetConsoleTextAttribute 26; E_unlock] console)
  /\ log 3 (plain_console_sink format_unmarked) sample_msg console
     = (mk_log_msg level.err (bytes "disk full") 0 [0; 0; 0]%N 0 [0; 0; 0]%N,
        append_calls
          [E_lock; E_format sample_cleared;
           E_WriteFile (bytes "0123456789") 10; E_unlock] console).
Proof.
  assert (Hh : valid_handle sample_handle) by (split; discriminate).
  assert (Hsz : (size (bytes "0123456789") < 2 ^ 32)%N) by reflexivity.
  assert (HW : is_WORD (wAttributes console)) by (split; [discriminate | reflexivity]).
  split; [exact Hh|]. do 3 (split; [reflexivity|]).
  split; [exact Hsz|]. split; [exact HW|].
  split.
  - exact (proj1 (proj1 (@log_zero_ranges 3 (console_sink format_unmarked)
                           sample_msg console Hh eq_refl eq_refl eq_refl Hsz)
                        eq_refl eq_refl HW)).
  - exact (proj1 (proj2 (@log_zero_ranges 3 (plain_console_sink format_unmarked)
                           sample_msg console Hh eq_refl eq_refl eq_refl Hsz)
                        eq_refl)).
Defined.

(** C6 fails as stated in two ways.  When the screen buffer cannot be
    queried, no colour is applied: the only attribute request is the final
    one, for white, which replaces the attributes 0x1A that were in force.
    And on a buffer of 2^32 bytes the length handed to [WriteConsoleA] is 0,
    so no byte of the buffer is written. *)
Lemma log_zero_ranges_without_apply_or_bytes :
  (in_console_ (console_sink format_unmarked) = true
   /\ should_do_colors_ (console_sink format_unmarked) = true
   /\ num_start_ranges (annotated 3 (console_sink format_unmarked) sample_msg) = 0%N
   /\ num_end_ranges (annotated 3 (console_sink format_unmarked) sample_msg) = 0%N
   /\ log 3 (console_sink format_unmarked) sample_msg console_no_info
      = (mk_log_msg level.err (bytes "disk full") 0 [0; 0; 0]%N 0 [0; 0; 0]%N,
         mk_world true false true 7
           [E_lock; E_format sample_cleared; E_GetConsoleScreenBufferInfo;
            E_WriteConsoleA (bytes "0123456789") 0 10;
            E_SetConsoleTextAttribute 7; E_unlock])
   /\ wAttributes console_no_info = 26%Z
   /\ filter is_set_attribute
        (issued (log 3 (console_sink format_unmarked) sample_msg) console_no_info)
      = [E_SetConsoleTextAttribute 7])
  /\ (num_start_ranges (annotated 3 (console_sink format_huge_unmarked) sample_msg) = 0%N
      /\ num_end_ranges (annotated 3 (console_sink format_huge_unmarked) sample_msg) = 0%N
      /\ formatted_by 3 (console_sink format_huge_unmarked) sample_msg = huge
      /\ size huge = (2 ^ 32)%N
      /\ issued (log 3 (console_sink format_huge_unmarked) sample_msg) console
         = [E_lock; E_format sample_cleared;
            E_GetConsoleScreenBufferInfo; E_SetConsoleTextAttribute 28;
            E_WriteConsoleA huge 0 0;
            E_SetConsoleTextAttribute 26; E_unlock]
      /\ output (issued (log 3 (console_sink format_huge_unmarked) sample_msg)
                        console) = []
      /\ formatted_by 3 (console_sink format_huge_unmarked) sample_msg <> []).
Proof.
  split.
  - do 4 (split; [reflexivity|]).
    split; [vm_compute; reflexivity|]. split; [reflexivity|].
    vm_compute. reflexivity.
  - assert (E : issued (log 3 (console_sink format_huge_unmarked) sample_msg) console
                = [E_lock; E_format sample_cleared;
                   E_GetConsoleScreenBufferInfo; E_SetConsoleTextAttribute 28;
                   E_WriteConsoleA huge 0 0;
                   E_SetConsoleTextAttribute 26; E_unlock]).
    { rewrite issued_log.
      rewrite log_calls_colorize by (reflexivity || (split; discriminate)).
      change (num_start_ranges
                (annotated 3 (console_sink format_huge_unmarked) sample_msg))
        with 0%N.
      change (formatted_by 3 (console_sink format_huge_unmarked) sample_msg) with huge.
      cbn [N.ltb N.compare]. unfold span_calls, print_range_calls.
      rewrite size_huge. reflexivity. }
    do 3 (split; [reflexivity|]). split; [exact size_huge|].
    split; [exact E|].
    split; [now rewrite E | exact huge_not_empty].
Qed.

(** C1 (amended). On a console with colouring on, equal counts, at least one
    range, ranges well-ordered and within the buffer, a buffer shorter than
    2^32 bytes and a screen buffer that can be queried, the calls of [log]
    between taking and releasing the lock are: the bytes before the first
    range, uncoloured; then for each range, in index order, the query, the
    application of the level colour, the bytes of the range, the restoration
    of the captured attributes, and the uncoloured bytes up to the next
    range or, after the last, to the end of the buffer.  The bytes written
    are the buffer, and there are one query and two attribute requests per
    range.  (The attributes of the device are a [WORD], as their type says.) *)
Theorem log_colored_ranges MAX_RANGES this msg w :
  valid_handle (out_handle_ this) ->
  in_console_ this = true ->
  should_do_colors_ this = true ->
  num_start_ranges (annotated MAX_RANGES this msg)
  = num_end_ranges (annotated MAX_RANGES this msg) ->
  (0 < num_start_ranges (annotated MAX_RANGES this msg))%N ->
  ordered_within 0 (ranges (annotated MAX_RANGES this msg))
                 (size (formatted_by MAX_RANGES this msg)) ->
  (size (formatted_by MAX_RANGES this msg) < 2 ^ 32)%N ->
  buffer_info_ok w = true ->
  is_WORD (wAttributes w) ->
  log MAX_RANGES this msg w
  = (annotated MAX_RANGES this msg,
     append_calls
       ([E_lock; E_format (cleared MAX_RANGES msg)]
          ++ colorized (formatted_by MAX_RANGES this msg) (colors_ this (level msg))
                       (wAttributes w) (ranges (annotated MAX_RANGES this msg))
          ++ [E_unlock]) w)
  /\ colorized (formatted_by MAX_RANGES this msg) (colors_ this (level msg))
               (wAttributes w) (ranges (annotated MAX_RANGES this msg))
     = uncolored (formatted_by MAX_RANGES this msg) 0
                 (at_ (color_ranges_start (annotated MAX_RANGES this msg)) 0)
       ++ colored_ranges (formatted_by MAX_RANGES this msg) (colors_ this (level msg))
                         (wAttributes w) (ranges (annotated MAX_RANGES this msg))
  /\ output (colorized (formatted_by MAX_RANGES this msg) (colors_ this (level msg))
                       (wAttributes w) (ranges (annotated MAX_RANGES this msg)))
     = formatted_by MAX_RANGES this msg
  /\ length (ranges (annotated MAX_RANGES this msg))
     = N.to_nat (num_start_ranges (annotated MAX_RANGES this msg))
  /\ length (filter is_buffer_info (issued (log MAX_RANGES this msg) w))
     = length (ranges (annotated MAX_RANGES this msg))
  /\ length (filter is_set_attribute (issued (log MAX_RANGES this msg) w))
     = (2 * length (ranges (annotated MAX_RANGES this msg)))%nat
  /\ wAttributes (snd (log MAX_RANGES this msg w)) = wAttributes w.
Proof.
  intros Hh Hc Hs Hn Hpos Hord Hsz Hok HW.
  set (buf := formatted_by MAX_RANGES this msg) in *.
  set (msg' := annotated MAX_RANGES this msg) in *.
  set (color := colors_ this (level msg)).
  assert (Hshape :
    colorized buf color (wAttributes w) (ranges msg')
    = uncolored buf 0 (at_ (color_ranges_start msg') 0)
      ++ colored_ranges buf color (wAttributes w) (ranges msg')).
  { unfold ranges.
    destruct (N.to_nat (num_start_ranges msg')) as [|n] eqn:En; [lia|].
    reflexivity. }
  assert (Hfirst : (at_ (color_ranges_start msg') 0 <= size buf)%N).
  { unfold ranges in Hord.
    destruct (N.to_nat (num_start_ranges msg')) as [|n] eqn:En; [lia|].
    cbn [ranges_from ordered_within] in Hord.
    destruct Hord as (_ & Hab & Hrest).
    apply ordered_within_le in Hrest. lia. }
  assert (E : log MAX_RANGES this msg w
              = (msg', append_calls
                         ([E_lock; E_format (cleared MAX_RANGES msg)]
                            ++ colorized buf color (wAttributes w) (ranges msg')
                            ++ [E_unlock]) w)).
  { apply log_append; try assumption.
    - rewrite log_calls_colorize by assumption.
      fold buf msg' color.
      apply N.ltb_lt in Hpos. rewrite Hpos, Hok, Hshape.
      rewrite print_range_calls_uncolored by assumption.
      rewrite (@loop_calls_prescribed buf color (wAttributes w) msg' Hsz
                 (N.to_nat (num_start_ranges msg')) 0%N 0%N);
        [reflexivity | now rewrite Nnat.N2Nat.id | exact Hord].
    - apply restores_app; [now apply restores_no_set|].
      apply restores_app; [apply restores_colorized | now apply restores_no_set]. }
  split; [exact E|]. split; [exact Hshape|].
  split; [now apply output_colorized|].
  split; [apply ranges_from_length|].
  rewrite (issued_append _ E), Hshape, !filter_app.
  rewrite uncolored_no_query, uncolored_no_set.
  destruct (colored_ranges_counts buf color (wAttributes w) (ranges msg')) as [H1 H2].
  cbn [filter is_buffer_info is_set_attribute app].
  rewrite !length_app, H1, H2. cbn [length].
  split; [lia|]. split; [lia|]. now rewrite E.
Qed.

(** The ranges [0,3) and [5,8) of ten bytes: the gap [3,5) and the tail
    [8,10) are written uncoloured, with two apply/restore pairs in order. *)
Lemma log_colored_ranges_witness :
  valid_handle (out_handle_ (console_sink format_two_ranges))
  /\ in_console_ (console_sink format_two_ranges) = true
  /\ should_do_colors_ (console_sink format_two_ranges) = true
  /\ ranges (annotated 3 (console_sink format_two_ranges) sample_msg)
     = [(0, 3); (5, 8)]%N
  /\ ordered_within 0 [(0, 3); (5, 8)]%N 10
  /\ buffer_info_ok console = true
  /\ is_WORD (wAttributes console)
  /\ log 3 (console_sink format_two_ranges) sample_msg console
     = (mk_log_msg level.err (bytes "disk full") 2 [0; 5; 0]%N 2 [3; 8; 0]%N,
        append_calls
          [E_lock; E_format sample_cleared;
           E_GetConsoleScreenBufferInfo; E_SetConsoleTextAttribute 28;
           E_WriteConsoleA (bytes "0123456789") 0 3;
           E_SetConsoleTextAttribute 26;
           E_WriteConsoleA (bytes "0123456789") 3 2;
           E_GetConsoleScreenBufferInfo; E_SetConsoleTextAttribute 28;
           E_WriteConsoleA (bytes "0123456789") 5 3;
           E_SetConsoleTextAttribute 26;
           E_WriteConsoleA (bytes "0123456789") 8 2;
           E_unlock] console).
Proof.
  assert (Hh : valid_handle sample_handle) by (split; discriminate).
  assert (Hord : ordered_within 0 [(0, 3); (5, 8)]%N 10)
    by (cbn; repeat split; discriminate).
  assert (Hsz : (size (bytes "0123456789") < 2 ^ 32)%N) by reflexivity.
  assert (HW : is_WORD (wAttributes console)) by (split; [discriminate | reflexivity]).
  split; [exact Hh|]. do 3 (split; [reflexivity|]).
  split; [exact Hord|]. split; [reflexivity|]. split; [exact HW|].
  exact (proj1 (@log_colored_ranges 3 (console_sink format_two_ranges) sample_msg
                  console Hh eq_refl eq_refl eq_refl eq_refl Hord Hsz eq_refl HW)).
Defined.

(** C1 fails as stated in two ways.  When the screen buffer cannot be
    queried, the ranges [0,3) and [5,8) are written without any colour being
    applied, and each is followed by a request for white.  And with the one
    range [0, 2^32) over a buffer of 2^32 bytes, the length handed to
    [WriteConsoleA] is 0, so no byte of the buffer is written. *)
Lemma log_colored_ranges_without_apply_or_bytes :
  (in_console_ (console_sink format_two_ranges) = true
   /\ should_do_colors_ (console_sink format_two_ranges) = true
   /\ ranges (annotated 3 (console_sink format_two_ranges) sample_msg)
      = [(0, 3); (5, 8)]%N
   /\ log 3 (console_sink format_two_ranges) sample_msg console_no_info
      = (mk_log_msg level.err (bytes "disk full") 2 [0; 5; 0]%N 2 [3; 8; 0]%N,
         mk_world true false true 7
           [E_lock; E_format sample_cleared;
            E_GetConsoleScreenBufferInfo;
            E_WriteConsoleA (bytes "0123456789") 0 3;
            E_SetConsoleTextAttribute 7;
            E_WriteConsoleA (bytes "0123456789") 3 2;
            E_GetConsoleScreenBufferInfo;
            E_WriteConsoleA (bytes "0123456789") 5 3;
            E_SetConsoleTextAttribute 7;
            E_WriteConsoleA (bytes "0123456789") 8 2;
            E_unlock])
   /\ wAttributes console_no_info = 26%Z
   /\ filter is_set_attribute
        (issued (log 3 (console_sink format_two_ranges) sample_msg) console_no_info)
      = [E_SetConsoleTextAttribute 7; E_SetConsoleTextAttribute 7])
  /\ (ranges (annotated 3 (console_sink format_huge_one_range) sample_msg)
      = [(0, 2 ^ 32)]%N
      /\ formatted_by 3 (console_sink format_huge_one_range) sample_msg = huge
      /\ size huge = (2 ^ 32)%N
      /\ issued (log 3 (console_sink format_huge_one_range) sample_msg) console
         = [E_lock; E_format sample_cleared;
            E_GetConsoleScreenBufferInfo; E_SetConsoleTextAttribute 28;
            E_WriteConsoleA huge 0 0;
            E_SetConsoleTextAttribute 26; E_unlock]
      /\ output (issued (log 3 (console_sink format_huge_one_range) sample_msg)
                        console) = []
      /\ formatted_by 3 (console_sink format_huge_one_range) sample_msg <> []).
Proof.
  split.
  - do 3 (split; [reflexivity|]).
    split; [vm_compute; reflexivity|]. split; [reflexivity|].
    vm_compute. reflexivity.
  - assert (E : issued (log 3 (console_sink format_huge_one_range) sample_msg) console
                = [E_lock; E_format sample_cleared;
                   E_GetConsoleScreenBufferInfo; E_SetConsoleTextAttribute 28;
                   E_WriteConsoleA huge 0 0;
                   E_SetConsoleTextAttribute 26; E_unlock]).
    { rewrite issued_log.
      rewrite log_calls_colorize by (reflexivity || (split; discriminate)).
      change (num_start_ranges
                (annotated 3 (console_sink format_huge_one_range) sample_msg))
        with 1%N.
      change (formatted_by 3 (console_sink format_huge_one_range) sample_msg) with huge.
      change (N.to_nat 1) with 1%nat.
      cbn [N.ltb N.compare loop_calls].
      unfold span_calls, print_range_calls.
      change (annotated 3 (console_sink format_huge_one_range) sample_msg)
        with (mk_log_msg level.err (bytes "disk full") 1 [0; 0; 0]%N
                         1 [2 ^ 32; 0; 0]%N).
      cbn [at_ color_ranges_start color_ranges_end num_start_ranges nth N.to_nat].
      rewrite size_huge. reflexivity. }
    do 2 (split; [reflexivity|]). split; [exact size_huge|].
    split; [exact E|].
    split; [now rewrite E | exact huge_not_empty].
Qed.

(** ** Capturing and restoring attributes *)

(** After calls whose only attribute request is [a], the attributes are [a]
    if a request was made and accepted, and untouched otherwise. *)
Lemma replay_single_request a cs :
  forall w,
    Forall (requests_only [a]) cs ->
    wAttributes (replay cs w)
    = if set_attribute_ok w && existsb is_set_attribute cs then a
      else wAttributes w.
Proof.
  induction cs as [|c cs IH]; intros w H.
  - cbn. now rewrite Bool.andb_false_r.
  - inversion H as [|c' cs' Hc Hcs]; subst.
    change (replay (c :: cs) w) with (replay cs (step w c)).
    rewrite (IH _ Hcs).
    destruct c; cbn [existsb is_set_attribute orb step record_call
                       set_attribute_ok wAttributes]; try reflexivity.
    destruct Hc as [<- | []].
    destruct (set_attribute_ok w); cbn [andb]; [|reflexivity].
    now destruct (existsb is_set_attribute cs).
Qed.

(** C5 (amended). When the screen buffer can be queried,
    [set_foreground_color_] returns the attributes in force before it
    changes them, every attribute request of [log] is either the applied
    level colour or those captured attributes, and the attributes in force
    when [log] returns are those in force when it was called.  When the
    query fails, [set_foreground_color_] requests nothing and returns white;
    every attribute request of [log] is then for white, so the attributes on
    return are white if such a request was made and accepted.  The write
    calls of [log] are the same in both cases.  (The attributes of the device
    are a [WORD], as their type says.) *)
Theorem set_foreground_color_capture_restore MAX_RANGES this msg w :
  is_WORD (wAttributes w) ->
  (buffer_info_ok w = true ->
   (forall attribs,
       set_foreground_color_ this attribs w
       = (wAttributes w,
          replay [E_GetConsoleScreenBufferInfo;
                  E_SetConsoleTextAttribute (applied attribs (wAttributes w))] w))
   /\ Forall (requests_only [applied (colors_ this (level msg)) (wAttributes w);
                             wAttributes w])
             (issued (log MAX_RANGES this msg) w)
   /\ wAttributes (snd (log MAX_RANGES this msg w)) = wAttributes w)
  /\ (buffer_info_ok w = false ->
      (forall attribs,
          set_foreground_color_ this attribs w
          = (white, record_call E_GetConsoleScreenBufferInfo w))
      /\ Forall (requests_only [white]) (issued (log MAX_RANGES this msg) w)
      /\ wAttributes (snd (log MAX_RANGES this msg w))
         = if set_attribute_ok w
              && existsb is_set_attribute (issued (log MAX_RANGES this msg) w)
           then white else wAttributes w)
  /\ (forall w',
        filter is_write (issued (log MAX_RANGES this msg) w')
        = filter is_write (issued (log MAX_RANGES this msg) w)).
Proof.
  intros HW. split; [|split].
  - intros Hok. split; [|split].
    + intros attribs. rewrite set_foreground_color_run, Hok.
      rewrite (to_WORD_id HW), (to_WORD_id (applied_is_WORD _ _)). reflexivity.
    + rewrite issued_log, Hok, (to_WORD_id HW). apply requests_log_calls.
    + rewrite log_run, Hok, (to_WORD_id HW). cbn [snd].
      now apply restores_log_calls.
  - intros Hok. split; [|split].
    + intros attribs. now rewrite set_foreground_color_run, Hok.
    + rewrite issued_log, Hok. apply requests_log_calls.
    + rewrite issued_log, log_run, Hok. cbn [snd].
      apply replay_single_request. apply requests_log_calls.
  - intros w'. rewrite !issued_log. apply log_calls_writes.
Qed.

(** The same line logged on a console that can be queried and on one that
    cannot. *)
Lemma set_foreground_color_capture_restore_witness :
  is_WORD (wAttributes console)
  /\ set_foreground_color_ (console_sink format_two_ranges) 12 console
     = (26%Z, replay [E_GetConsoleScreenBufferInfo; E_SetConsoleTextAttribute 28]
                     console)
  /\ wAttributes (snd (log 3 (console_sink format_two_ranges) sample_msg console))
     = 26%Z
  /\ is_WORD (wAttributes console_no_info)
  /\ set_foreground_color_ (console_sink format_two_ranges) 12 console_no_info
     = (7%Z, record_call E_GetConsoleScreenBufferInfo console_no_info)
  /\ wAttributes (snd (log 3 (console_sink format_two_ranges) sample_msg
                           console_no_info))
     = 7%Z
  /\ filter is_write
       (issued (log 3 (console_sink format_two_ranges) sample_msg) console_no_info)
     = filter is_write
         (issued (log 3 (console_sink format_two_ranges) sample_msg) console).
Proof.
  assert (HW : is_WORD 26) by (split; [discriminate | reflexivity]).
  pose proof (@set_foreground_color_capture_restore
                3 (console_sink format_two_ranges) sample_msg console HW)
    as (Hok & _ & Hwrites).
  pose proof (@set_foreground_color_capture_restore
                3 (console_sink format_two_ranges) sample_msg console_no_info HW)
    as (_ & Hfail & _).
  destruct (Hok eq_refl) as (Hcap & _ & Hamb).
  destruct (Hfail eq_refl) as (Hwhite & _ & Hafter).
  split; [exact HW|]. split; [exact (Hcap 12%Z)|]. split; [exact Hamb|].
  split; [exact HW|]. split; [exact (Hwhite 12%Z)|].
  split; [|exact (Hwrites console_no_info)].
  rewrite Hafter. reflexivity.
Defined.

(** C5 fails as stated when the query fails: the restoring request carries
    the fixed value 7 (white), not the attributes 0x1A in force when the
    colour was to be applied, and those attributes are replaced for good. *)
Lemma log_restores_white_when_query_fails :
  buffer_info_ok console_no_info = false
  /\ wAttributes console_no_info = 26%Z
  /\ set_foreground_color_ (console_sink format_unmarked) 12 console_no_info
     = (7%Z, mk_world true false true 26 [E_GetConsoleScreenBufferInfo])
  /\ filter is_set_attribute
       (issued (log 3 (console_sink format_unmarked) sample_msg) console_no_info)
     = [E_SetConsoleTextAttribute 7]
  /\ wAttributes (snd (log 3 (console_sink format_unmarked) sample_msg
                           console_no_info))
     = 7%Z
  /\ wAttributes (snd (log 3 (console_sink format_unmarked) sample_msg
                           console_no_info))
     <> wAttributes console_no_info.
Proof.
  do 5 (split; [vm_compute; reflexivity|]).
  vm_compute. discriminate.
Qed.

(** * Further properties of the sink *)

(** ** Construction and the colour table *)

Lemma wincolor_sink_ctor_colors
      (pattern_formatter : option string -> formatter) raw out_handle mode w l :
  colors_ (fst (wincolor_sink_ctor pattern_formatter raw out_handle mode w)) l
  = default_colors l.
Proof.
  unfold wincolor_sink_ctor.
  erewrite bind_run by apply set_color_mode_impl_run.
  destruct l; reflexivity.
Qed.

Lemma wincolor_sink_ctor_should_do_colors
      (pattern_formatter : option string -> formatter) raw out_handle mode w :
  should_do_colors_ (fst (wincolor_sink_ctor pattern_formatter raw out_handle mode w))
  = match mode with
    | automatic => console_mode_ok w
    | always => true
    | never => false
    end.
Proof.
  unfold wincolor_sink_ctor.
  erewrite bind_run by apply set_color_mode_impl_run. reflexivity.
Qed.

(** X1. Whatever the storage held, a constructed sink has the handle it was
    given, the default pattern formatter, the seven default colours, and
    [should_do_colors_] resolved from the mode; the only call made is the
    console-mode probe, and only for [automatic]; no lock is taken. *)
Theorem wincolor_sink_ctor_result
        (pattern_formatter : option string -> formatter) raw out_handle mode w :
  exists this,
    wincolor_sink_ctor pattern_formatter raw out_handle mode w
    = (this,
       append_calls match mode with automatic => [E_GetConsoleMode] | _ => [] end w)
    /\ out_handle_ this = out_handle
    /\ formatter_ this = pattern_formatter None
    /\ in_console_ this = in_console_ raw
    /\ should_do_colors_ this
       = match mode with
         | automatic => console_mode_ok w
         | always => true
         | never => false
         end
    /\ (forall l, colors_ this l = default_colors l).
Proof.
  unfold wincolor_sink_ctor.
  erewrite bind_run by apply set_color_mode_impl_run.
  eexists. split; [reflexivity|].
  cbn [out_handle_ formatter_ in_console_ should_do_colors_ colors_ with_colors].
  repeat split. intros l. destruct l; reflexivity.
Qed.

(** X2. [set_color] stores the colour, cut to the 16 bits of its parameter
    type, at the given level: reading the level back gives the low 16 bits
    of what was passed, which is the colour itself for every 16-bit value.
    Every other level, the handle, the formatter and both flags are left as
    they were; the device is touched only to take and release the lock. *)
Theorem set_color_lookup lvl color this w :
  colors_ (fst (set_color lvl color this w)) lvl = to_WORD color
  /\ (is_WORD color -> colors_ (fst (set_color lvl color this w)) lvl = color)
  /\ (forall l, l <> lvl ->
        colors_ (fst (set_color lvl color this w)) l = colors_ this l)
  /\ out_handle_ (fst (set_color lvl color this w)) = out_handle_ this
  /\ formatter_ (fst (set_color lvl color this w)) = formatter_ this
  /\ in_console_ (fst (set_color lvl color this w)) = in_console_ this
  /\ should_do_colors_ (fst (set_color lvl color this w)) = should_do_colors_ this
  /\ snd (set_color lvl color this w) = append_calls [E_lock; E_unlock] w.
Proof.
  assert (E : set_color lvl color this w
              = (with_colors (colors_store lvl (to_WORD color) (colors_ this)) this,
                 append_calls [E_lock; E_unlock] w)).
  { unfold set_color, bind, lock_guard, unlock_guard, emit, ret, record_call,
      append_calls. cbn. now rewrite <- app_assoc. }
  rewrite E. cbn [fst snd colors_ with_colors out_handle_ formatter_
                      in_console_ should_do_colors_].
  unfold colors_store.
  split; [now destruct (level_eq_dec lvl lvl)|].
  split; [intros HW; rewrite (to_WORD_id HW); now destruct (level_eq_dec lvl lvl)|].
  split; [|now repeat split].
  intros l Hl. now destruct (level_eq_dec l lvl).
Qed.

(** A value wider than 16 bits is stored cut; a 16-bit value is stored as it
    is. *)
Lemma set_color_lookup_witness :
  colors_ (fst (set_color level.info 65541 (console_sink format_unmarked) console))
          level.info = 5%Z
  /\ is_WORD 14
  /\ colors_ (fst (set_color level.info 14 (console_sink format_unmarked) console))
             level.info = 14%Z
  /\ colors_ (fst (set_color level.info 14 (console_sink format_unmarked) console))
             level.err = 12%Z.
Proof.
  assert (HW : is_WORD 14) by (split; [discriminate | reflexivity]).
  assert (Hl : level.err <> level.info) by discriminate.
  pose proof (@set_color_lookup level.info 65541 (console_sink format_unmarked)
                console) as (Hcut & _).
  pose proof (@set_color_lookup level.info 14 (console_sink format_unmarked)
                console) as (_ & Hkeep & Hother & _).
  split; [exact Hcut|]. split; [exact HW|].
  split; [exact (Hkeep HW) | exact (Hother level.err Hl)].
Defined.

(** [log] reads the colour table at the level of the message only. *)
Lemma log_colour_at_level MAX_RANGES colors this msg w :
  colors (level msg) = colors_ this (level msg) ->
  log MAX_RANGES (with_colors colors this) msg w = log MAX_RANGES this msg w.
Proof.
  intros H. rewrite !log_run. unfold log_calls, annotated.
  cbn [with_colors out_handle_ formatter_ colors_ in_console_ should_do_colors_].
  now rewrite H.
Qed.

(** X3. A colour set for one level changes nothing for messages of another
    level: [log] gives the same result and leaves the same world.  For a
    message of that level, what the table held before is irrelevant. *)
Theorem set_color_then_log MAX_RANGES lvl color this w0 msg w :
  (level msg <> lvl ->
   log MAX_RANGES (fst (set_color lvl color this w0)) msg w
   = log MAX_RANGES this msg w)
  /\ (level msg = lvl ->
      forall colors,
        log MAX_RANGES (fst (set_color lvl color this w0)) msg w
        = log MAX_RANGES
              (fst (set_color lvl color (with_colors colors this) w0)) msg w)
  /\ (level msg = lvl ->
      buffer_info_ok w = true ->
      is_WORD (wAttributes w) ->
      Forall (requests_only [applied color (wAttributes w); wAttributes w])
             (issued (log MAX_RANGES (fst (set_color lvl color this w0)) msg) w)).
Proof.
  assert (E : forall t, fst (set_color lvl color t w0)
                        = with_colors (colors_store lvl (to_WORD color) (colors_ t)) t)
    by reflexivity.
  split; [|split].
  - intros Hl. rewrite E. apply log_colour_at_level.
    unfold colors_store. now destruct (level_eq_dec (level msg) lvl).
  - intros Hl colors. rewrite !E.
    rewrite !log_run. unfold log_calls, annotated.
    cbn [with_colors out_handle_ formatter_ colors_ in_console_ should_do_colors_].
    unfold colors_store. rewrite Hl.
    now destruct (level_eq_dec lvl lvl).
  - intros Hl Hok HW. rewrite issued_log, Hok, (to_WORD_id HW), E.
    replace (applied color (wAttributes w))
      with (applied
              (colors_ (with_colors (colors_store lvl (to_WORD color) (colors_ this))
                                    this)
                       (level msg))
              (wAttributes w)).
    + apply requests_log_calls.
    + cbn [colors_ with_colors]. unfold colors_store. rewrite Hl.
      destruct (level_eq_dec lvl lvl) as [_|Hne]; [|now destruct Hne].
      unfold applied. now rewrite to_WORD_idem.
Qed.

(** ** The bits of an applied colour *)

Lemma low_bits_only k x n :
  (0 <= x < 2 ^ k)%Z -> (0 <= k <= n)%Z -> Z.testbit x n = false.
Proof.
  intros [H0 H1] Hn.
  destruct (Z.eq_dec x 0) as [->|Hne]; [apply Z.bits_0|].
  apply Z.bits_above_log2; [exact H0|].
  assert (Z.log2 x < k)%Z by (apply Z.log2_lt_pow2; lia). lia.
Qed.

(** Bit [n] of the masks [0xf] and [0xfff0]. *)
Lemma testbit_0xf n : (0 <= n)%Z -> Z.testbit 0xf n = (n <? 4)%Z.
Proof.
  intros Hn. change 0xf%Z with (Z.ones 4).
  destruct (Z.ltb_spec n 4).
  - apply Z.ones_spec_low. lia.
  - apply Z.ones_spec_high. lia.
Qed.

Lemma testbit_0xfff0 n :
  (0 <= n)%Z -> Z.testbit 0xfff0 n = ((4 <=? n) && (n <? 16))%Z.
Proof.
  intros Hn. change 0xfff0%Z with (Z.shiftl (Z.ones 12) 4).
  rewrite Z.shiftl_spec by exact Hn.
  destruct (Z.leb_spec 4 n); cbn [andb].
  - destruct (Z.ltb_spec n 16).
    + apply Z.ones_spec_low. lia.
    + apply Z.ones_spec_high. lia.
  - apply Z.testbit_neg_r. lia.
Qed.

Lemma applied_bit color ambient n :
  (0 <= n)%Z ->
  Z.testbit (applied color ambient) n
  = Z.testbit (to_WORD color) n
    || (Z.testbit ambient n && ((4 <=? n) && (n <? 16))%Z).
Proof.
  intros Hn. unfold applied.
  now rewrite Z.lor_spec, Z.land_spec, testbit_0xfff0.
Qed.

(** X4. When the query succeeds and the request is accepted, a colour that
    has foreground bits only (a value below 16) replaces the low four bits
    of the attributes and leaves bits 4 to 15 as they were. *)
Theorem set_foreground_color_changes_foreground_only this attribs w :
  buffer_info_ok w = true ->
  set_attribute_ok w = true ->
  (0 <= attribs < 16)%Z ->
  Z.land (wAttributes (snd (set_foreground_color_ this attribs w))) 0xf = attribs
  /\ Z.land (wAttributes (snd (set_foreground_color_ this attribs w))) 0xfff0
     = Z.land (wAttributes w) 0xfff0.
Proof.
  intros Hok Hset Hc.
  rewrite set_foreground_color_run, Hok. cbn [snd].
  assert (E : wAttributes
                (replay [E_GetConsoleScreenBufferInfo;
                         E_SetConsoleTextAttribute
                           (to_WORD (applied attribs (wAttributes w)))] w)
              = applied attribs (wAttributes w)).
  { rewrite (to_WORD_id (applied_is_WORD _ _)).
    destruct w as [cm bi sa wa cs]; cbn in Hset |- *. now rewrite Hset. }
  rewrite E.
  assert (HcW : to_WORD attribs = attribs)
    by (apply to_WORD_id; unfold is_WORD; lia).
  split; apply Z.bits_inj'; intros n Hn;
    rewrite !Z.land_spec, applied_bit, HcW by exact Hn.
  - rewrite testbit_0xf by exact Hn.
    destruct (Z.ltb_spec n 4) as [Hlt|Hge].
    + replace ((4 <=? n)%Z) with false by (symmetry; apply Z.leb_gt; lia).
      cbn [andb]. now rewrite !Bool.andb_false_r, Bool.orb_false_r, Bool.andb_true_r.
    + rewrite Bool.andb_false_r.
      symmetry. apply (@low_bits_only 4); [exact Hc | lia].
  - rewrite testbit_0xfff0 by exact Hn.
    destruct ((4 <=? n)%Z && (n <? 16)%Z) eqn:Em.
    + apply andb_prop in Em. destruct Em as [E4 _]. apply Z.leb_le in E4.
      rewrite (@low_bits_only 4 attribs n Hc) by lia.
      cbn [orb]. now rewrite !Bool.andb_true_r.
    + now rewrite !Bool.andb_false_r.
Qed.

Lemma set_foreground_color_changes_foreground_only_witness :
  buffer_info_ok console = true
  /\ set_attribute_ok console = true
  /\ (0 <= 12 < 16)%Z
  /\ Z.land (wAttributes (snd (set_foreground_color_
                                 (console_sink format_unmarked) 12 console))) 0xf
     = 12%Z
  /\ Z.land (wAttributes (snd (set_foreground_color_
                                 (console_sink format_unmarked) 12 console))) 0xfff0
     = Z.land (wAttributes console) 0xfff0.
Proof.
  assert (Hc : (0 <= 12 < 16)%Z) by lia.
  do 2 (split; [reflexivity|]). split; [exact Hc|].
  exact (@set_foreground_color_changes_foreground_only
           (console_sink format_unmarked) 12 console eq_refl eq_refl Hc).
Defined.

(** X5. With the colours the constructor installs, applying the colour of
    any level but [critical] keeps bits 4 to 15 of the attributes in force,
    background included; the colour of [critical] turns the red background
    bit on whatever was in force. *)
Theorem default_colors_background
        (pattern_formatter : option string -> formatter)
        raw out_handle mode w lvl ambient :
  (lvl <> level.critical ->
   Z.land (applied (colors_ (fst (wincolor_sink_ctor pattern_formatter raw out_handle
                                                    mode w)) lvl) ambient) 0xfff0
   = Z.land ambient 0xfff0)
  /\ (lvl = level.critical ->
      Z.land (applied (colors_ (fst (wincolor_sink_ctor pattern_formatter raw
                                                       out_handle mode w)) lvl)
                      ambient) BACKGROUND_RED
      = BACKGROUND_RED).
Proof.
  rewrite wincolor_sink_ctor_colors.
  split.
  - intros Hl.
    assert (Hc : (0 <= default_colors lvl < 16)%Z)
      by (destruct lvl; cbn; try lia; congruence).
    assert (HcW : to_WORD (default_colors lvl) = default_colors lvl)
      by (apply to_WORD_id; unfold is_WORD; lia).
    apply Z.bits_inj'; intros n Hn.
    rewrite !Z.land_spec, applied_bit, HcW, testbit_0xfff0 by exact Hn.
    destruct ((4 <=? n)%Z && (n <? 16)%Z) eqn:Em.
    + apply andb_prop in Em. destruct Em as [E4 _]. apply Z.leb_le in E4.
      rewrite (@low_bits_only 4 (default_colors lvl) n Hc) by lia.
      cbn [orb]. now rewrite !Bool.andb_true_r.
    + now rewrite !Bool.andb_false_r.
  - intros ->. cbn [default_colors].
    apply Z.bits_inj'; intros n Hn.
    rewrite Z.land_spec, applied_bit by exact Hn.
    change BACKGROUND_RED with (Z.shiftl 1 6).
    rewrite Z.shiftl_spec by exact Hn.
    destruct (Z.eq_dec n 6) as [->|Hne].
    + reflexivity.
    + assert (Hb : Z.testbit 1 (n - 6) = false).
      { destruct (Z_lt_le_dec n 6).
        - apply Z.testbit_neg_r. lia.
        - apply (@low_bits_only 1); lia. }
      rewrite Hb. apply Bool.andb_false_r.
Qed.

(** ** The shape of what [log] issues *)

Lemma log_calls_device MAX_RANGES this msg ok ambient :
  valid_handle (out_handle_ this) ->
  log_calls MAX_RANGES this msg ok ambient
  = [E_lock; E_format (cleared MAX_RANGES msg)]
      ++ device_calls MAX_RANGES this msg ok ambient ++ [E_unlock].
Proof.
  intros Hh. unfold log_calls, device_calls, colours.
  rewrite (valid_handle_guard Hh).
  fold (annotated MAX_RANGES this msg). fold (formatted_by MAX_RANGES this msg).
  destruct (in_console_ this); cbn [negb andb]; [|reflexivity].
  reflexivity.
Qed.

Lemma log_calls_invalid MAX_RANGES this msg ok ambient :
  out_handle_ this = nullptr \/ out_handle_ this = INVALID_HANDLE_VALUE ->
  log_calls MAX_RANGES this msg ok ambient = [].
Proof.
  intros H. unfold log_calls. now rewrite (invalid_handle_guard H).
Qed.

Lemma handle_cases h :
  valid_handle h \/ (h = nullptr \/ h = INVALID_HANDLE_VALUE).
Proof.
  unfold valid_handle.
  destruct (Z.eq_dec h nullptr) as [->|H1]; [right; now left|].
  destruct (Z.eq_dec h INVALID_HANDLE_VALUE) as [->|H2]; [right; now right|].
  left. now split.
Qed.

(** A property of every call made by [print_range_], by a coloured span and
    by [write_to_file_] is a property of every device call of [log]. *)
Lemma loop_calls_Forall (P : call -> Prop) formatted ok color ambient msg n :
  (forall a b, Forall P (print_range_calls formatted a b)) ->
  (forall a b, Forall P (span_calls formatted ok color ambient a b)) ->
  forall i, Forall P (loop_calls formatted ok color ambient msg n i).
Proof.
  intros Hp Hs. induction n as [|n IH]; intros i; [constructor|].
  cbn [loop_calls]. repeat (apply Forall_app; split); auto.
Qed.

Lemma device_calls_Forall (P : call -> Prop) MAX_RANGES this msg ok ambient :
  (forall formatted a b, Forall P (print_range_calls formatted a b)) ->
  (forall formatted color a b,
      Forall P (span_calls formatted ok color ambient a b)) ->
  (forall formatted, Forall P (write_to_file_calls formatted)) ->
  Forall P (device_calls MAX_RANGES this msg ok ambient).
Proof.
  intros Hp Hs Hw. unfold device_calls.
  destruct (colours MAX_RANGES this msg); [|apply Hw].
  destruct (0 <? _)%N; [|apply Hs].
  apply Forall_app. split; [apply Hp|].
  apply loop_calls_Forall; auto.
Qed.

Lemma Forall_false_filter (f : call -> bool) cs :
  Forall (fun c => f c = false) cs -> filter f cs = [].
Proof.
  induction 1 as [|c cs Hc _ IH]; [reflexivity|].
  cbn. now rewrite Hc.
Qed.

Lemma print_range_calls_kind formatted a b :
  Forall (fun c => is_WriteConsoleA c = true) (print_range_calls formatted a b).
Proof. unfold print_range_calls. destruct (a <? b)%N; repeat constructor. Qed.

Lemma Forall_kind (P : call -> Prop) cs :
  (forall formatted a n, P (E_WriteConsoleA formatted a n)) ->
  Forall (fun c => is_WriteConsoleA c = true) cs -> Forall P cs.
Proof.
  intros HP H. induction H as [|c cs Hc _ IH]; constructor; [|exact IH].
  destruct c; try discriminate. apply HP.
Qed.

Lemma span_calls_kinds (P : call -> Prop) formatted ok color ambient a b :
  P E_GetConsoleScreenBufferInfo ->
  (forall x, P (E_SetConsoleTextAttribute x)) ->
  (forall f s n, P (E_WriteConsoleA f s n)) ->
  Forall P (span_calls formatted ok color ambient a b).
Proof.
  intros Hq Hs Hw. unfold span_calls.
  constructor; [exact Hq|].
  repeat (apply Forall_app; split).
  - destruct ok; repeat constructor. apply Hs.
  - apply Forall_kind; [exact Hw | apply print_range_calls_kind].
  - repeat constructor. apply Hs.
Qed.

(** The device calls of [log] are attribute queries, attribute requests and
    writes. *)
Lemma device_calls_kinds (P : call -> Prop) MAX_RANGES this msg ok ambient :
  P E_GetConsoleScreenBufferInfo ->
  (forall x, P (E_SetConsoleTextAttribute x)) ->
  (forall f s n, P (E_WriteConsoleA f s n)) ->
  (forall f n, P (E_WriteFile f n)) ->
  Forall P (device_calls MAX_RANGES this msg ok ambient).
Proof.
  intros Hq Hs Hw Hf. apply device_calls_Forall; intros.
  - apply Forall_kind; [exact Hw | apply print_range_calls_kind].
  - now apply span_calls_kinds.
  - repeat constructor. apply Hf.
Qed.

(** X6. [log] makes all its calls under the lock: either it issues nothing
    at all (null or invalid handle), or it takes the lock first, releases it
    last, and neither takes nor releases it in between. *)
Theorem log_lock_discipline MAX_RANGES this msg w :
  (out_handle_ this = nullptr \/ out_handle_ this = INVALID_HANDLE_VALUE ->
   issued (log MAX_RANGES this msg) w = [])
  /\ (valid_handle (out_handle_ this) ->
      exists body,
        issued (log MAX_RANGES this msg) w = [E_lock] ++ body ++ [E_unlock]
        /\ filter is_lock body = []
        /\ filter is_unlock body = []).
Proof.
  rewrite issued_log. split.
  - apply log_calls_invalid.
  - intros Hh. rewrite log_calls_device by exact Hh.
    exists (E_format (cleared MAX_RANGES msg)
              :: device_calls MAX_RANGES this msg (buffer_info_ok w)
                   (to_WORD (wAttributes w))).
    split; [reflexivity|].
    cbn [filter is_lock is_unlock].
    split; apply Forall_false_filter, device_calls_kinds; reflexivity.
Qed.

(** X7. [log] never probes the console mode, and it never mixes the two
    write calls: when it takes the colouring branch every write is a
    [WriteConsoleA]; otherwise its only device call is one [WriteFile], with
    no attribute query and no attribute request. *)
Theorem log_write_calls_exclusive MAX_RANGES this msg w :
  filter is_console_mode (issued (log MAX_RANGES this msg) w) = []
  /\ (colours MAX_RANGES this msg = true ->
      filter is_WriteFile (issued (log MAX_RANGES this msg) w) = [])
  /\ (valid_handle (out_handle_ this) ->
      colours MAX_RANGES this msg = false ->
      issued (log MAX_RANGES this msg) w
      = [E_lock; E_format (cleared MAX_RANGES msg);
         E_WriteFile (formatted_by MAX_RANGES this msg)
                     (to_DWORD (size (formatted_by MAX_RANGES this msg)));
         E_unlock]).
Proof.
  rewrite issued_log.
  destruct (handle_cases (out_handle_ this)) as [Hh|Hh].
  - rewrite log_calls_device by exact Hh.
    split; [|split].
    + cbn [app filter is_console_mode]. rewrite filter_app.
      cbn [filter is_console_mode]. rewrite app_nil_r.
      apply Forall_false_filter, device_calls_kinds; reflexivity.
    + intros Hc. cbn [app filter is_WriteFile]. rewrite filter_app.
      cbn [filter is_WriteFile]. rewrite app_nil_r.
      unfold device_calls. rewrite Hc.
      apply Forall_false_filter.
      destruct (0 <? _)%N.
      * apply Forall_app. split.
        -- apply Forall_kind; [reflexivity | apply print_range_calls_kind].
        -- apply loop_calls_Forall; intros.
           ++ apply Forall_kind; [reflexivity | apply print_range_calls_kind].
           ++ apply span_calls_kinds; reflexivity.
      * apply span_calls_kinds; reflexivity.
    + intros _ Hc. unfold device_calls. now rewrite Hc.
  - rewrite log_calls_invalid by exact Hh.
    split; [reflexivity|]. split; [reflexivity|].
    intros [H1 H2]. destruct Hh; contradiction.
Qed.

(** ** Reading within the buffer *)

Lemma to_DWORD_le n : (to_DWORD n <= n)%N.
Proof. unfold to_DWORD. apply N.Div0.mod_le. Qed.

Lemma print_range_calls_within formatted a b :
  (b <= size formatted)%N ->
  Forall reads_within (print_range_calls formatted a b).
Proof.
  intros Hb. unfold print_range_calls.
  destruct (N.ltb_spec a b) as [Hlt|_]; [|constructor].
  repeat constructor. cbn [reads_within].
  pose proof (to_DWORD_le (b - a)). lia.
Qed.

Lemma span_calls_within formatted ok color ambient a b :
  (b <= size formatted)%N ->
  Forall reads_within (span_calls formatted ok color ambient a b).
Proof.
  intros Hb. unfold span_calls.
  constructor; [exact I|].
  repeat (apply Forall_app; split).
  - destruct ok; repeat constructor.
  - now apply print_range_calls_within.
  - repeat constructor.
Qed.

Lemma loop_calls_within formatted ok color ambient msg :
  forall n i lo,
    (i + N.of_nat n = num_start_ranges msg)%N ->
    ordered_within lo (ranges_from msg n i) (size formatted) ->
    Forall reads_within (loop_calls formatted ok color ambient msg n i).
Proof.
  induction n as [|n IH]; intros i lo Hi H; [constructor|].
  cbn [loop_calls]. cbn [ranges_from ordered_within] in H.
  destruct H as (Hlo & Hab & Hrest).
  pose proof (ordered_within_le _ _ _ Hrest) as Hb.
  assert (Hi' : (i + 1 + N.of_nat n = num_start_ranges msg)%N)
    by (rewrite Nnat.Nat2N.inj_succ in Hi; lia).
  repeat (apply Forall_app; split).
  - now apply span_calls_within.
  - apply print_range_calls_within.
    destruct (i + 1 <? num_start_ranges msg)%N eqn:E; [|apply N.le_refl].
    destruct n as [|n].
    + apply N.ltb_lt in E. simpl in Hi'. lia.
    + cbn [ranges_from ordered_within] in Hrest.
      destruct Hrest as (_ & Hab' & Hrest').
      apply ordered_within_le in Hrest'. lia.
  - exact (IH _ _ Hi' Hrest).
Qed.

(** X8. When the ranges the formatter left are well-ordered and within the
    buffer, every write of [log] reads bytes of the buffer only, however long
    the buffer is; the plain branch needs no such condition. *)
Theorem log_reads_within_buffer MAX_RANGES this msg w :
  (colours MAX_RANGES this msg = true ->
   ordered_within 0 (ranges (annotated MAX_RANGES this msg))
                  (size (formatted_by MAX_RANGES this msg))) ->
  Forall reads_within (issued (log MAX_RANGES this msg) w).
Proof.
  intros H. rewrite issued_log.
  destruct (handle_cases (out_handle_ this)) as [Hh|Hh].
  2:{ rewrite log_calls_invalid by exact Hh. constructor. }
  rewrite log_calls_device by exact Hh.
  repeat constructor.
  apply Forall_app. split; [|repeat constructor].
  unfold device_calls.
  destruct (colours MAX_RANGES this msg).
  2:{ repeat constructor. cbn [reads_within]. apply to_DWORD_le. }
  specialize (H eq_refl). unfold ranges in H.
  destruct (N.ltb_spec 0 (num_start_ranges (annotated MAX_RANGES this msg)))
    as [Hpos|Hz].
  - apply Forall_app. split.
    + apply print_range_calls_within.
      destruct (N.to_nat (num_start_ranges (annotated MAX_RANGES this msg)))
        as [|n] eqn:En; [lia|].
      cbn [ranges_from ordered_within] in H.
      destruct H as (_ & Hab & Hrest). apply ordered_within_le in Hrest. lia.
    + apply (@loop_calls_within _ _ _ _ _ _ 0%N 0%N);
        [now rewrite Nnat.N2Nat.id | exact H].
  - apply span_calls_within, N.le_refl.
Qed.

Lemma log_reads_within_buffer_witness :
  colours 3 (console_sink format_two_ranges) sample_msg = true
  /\ (colours 3 (console_sink format_two_ranges) sample_msg = true ->
   ordered_within 0 (ranges (annotated 3 (console_sink format_two_ranges) sample_msg))
                  (size (formatted_by 3 (console_sink format_two_ranges) sample_msg)))
  /\ Forall reads_within
            (issued (log 3 (console_sink format_two_ranges) sample_msg) console).
Proof.
  assert (H : colours 3 (console_sink format_two_ranges) sample_msg = true ->
              ordered_within 0
                (ranges (annotated 3 (console_sink format_two_ranges) sample_msg))
                (size (formatted_by 3 (console_sink format_two_ranges) sample_msg))).
  { intros _. cbn. repeat split; discriminate. }
  split; [reflexivity|]. split; [exact H|].
  exact (@log_reads_within_buffer 3 (console_sink format_two_ranges) sample_msg
           console H).
Defined.

(** ** One call after another *)

Lemma log_calls_blind MAX_RANGES this msg ambient ambient' :
  log_calls MAX_RANGES this msg false ambient
  = log_calls MAX_RANGES this msg false ambient'.
Proof.
  unfold log_calls.
  destruct (_ || _); [reflexivity|].
  destruct (negb (in_console_ this)); [reflexivity|].
  destruct (_ && _); [|reflexivity].
  destruct (0 <? _)%N; [|reflexivity].
  now rewrite (loop_calls_blind _ _ ambient ambient').
Qed.

(** X9. What a [log] call issues does not depend on the calls made before
    it: after any earlier [log], on any sink and message, it issues the same
    calls as it would have issued first.  (The attributes of the device are
    a [WORD].) *)
Theorem log_after_log MAX_RANGES this msg this0 msg0 w :
  is_WORD (wAttributes w) ->
  issued (log MAX_RANGES this msg) (snd (log MAX_RANGES this0 msg0 w))
  = issued (log MAX_RANGES this msg) w.
Proof.
  intros HW. rewrite !issued_log, log_run. cbn [snd].
  rewrite (proj1 (proj2 (replay_flags _ _))).
  destruct (buffer_info_ok w) eqn:Hok.
  - rewrite (to_WORD_id HW).
    pose proof (@restores_log_calls MAX_RANGES this0 msg0 (wAttributes w) w eq_refl)
      as Hr.
    now rewrite Hr, (to_WORD_id HW).
  - apply log_calls_blind.
Qed.

Lemma log_after_log_witness :
  is_WORD (wAttributes console_no_info)
  /\ issued (log 3 (console_sink format_two_ranges) sample_msg)
            (snd (log 3 (console_sink format_unmarked) sample_msg console_no_info))
     = issued (log 3 (console_sink format_two_ranges) sample_msg) console_no_info.
Proof.
  assert (HW : is_WORD (wAttributes console_no_info))
    by (split; [discriminate | reflexivity]).
  split; [exact HW|].
  exact (@log_after_log 3 (console_sink format_two_ranges) sample_msg
           (console_sink format_unmarked) sample_msg console_no_info HW).
Defined.

(** ** Counting calls *)

Lemma print_range_calls_counts formatted a b :
  filter is_buffer_info (print_range_calls formatted a b) = []
  /\ filter is_set_attribute (print_range_calls formatted a b) = []
  /\ (length (filter is_write (print_range_calls formatted a b)) <= 1)%nat.
Proof.
  unfold print_range_calls.
  destruct (a <? b)%N; cbn; (split; [|split]); (reflexivity || lia).
Qed.

Lemma span_calls_counts formatted ok color ambient a b :
  length (filter is_buffer_info (span_calls formatted ok color ambient a b)) = 1%nat
  /\ length (filter is_set_attribute (span_calls formatted ok color ambient a b))
     = (if ok then 2 else 1)%nat
  /\ (length (filter is_write (span_calls formatted ok color ambient a b)) <= 1)%nat.
Proof.
  unfold span_calls, print_range_calls.
  destruct ok, (a <? b)%N; cbn; (split; [|split]); lia.
Qed.

Lemma loop_calls_counts formatted ok color ambient msg n :
  forall i,
    length (filter is_buffer_info (loop_calls formatted ok color ambient msg n i)) = n
    /\ length (filter is_set_attribute (loop_calls formatted ok color ambient msg n i))
       = (if ok then 2 * n else n)%nat
    /\ (length (filter is_write (loop_calls formatted ok color ambient msg n i))
        <= 2 * n)%nat.
Proof.
  induction n as [|n IH]; intros i.
  - cbn. destruct ok; (split; [|split]); lia.
  - cbn [loop_calls]. rewrite !filter_app, !length_app.
    destruct (IH (i + 1)%N) as (I1 & I2 & I3).
    destruct (span_calls_counts formatted ok color ambient
                (at_ (color_ranges_start msg) i) (at_ (color_ranges_end msg) i))
      as (S1 & S2 & S3).
    match goal with
    | |- context [print_range_calls formatted ?a ?b] =>
        destruct (print_range_calls_counts formatted a b) as (P1 & P2 & P3)
    end.
    rewrite I1, I2, S1, S2, P1, P2. cbn [length].
    destruct ok; (split; [|split]); lia.
Qed.

(** X10. On the colouring branch, well-formed ranges or not, [log] queries
    the attributes once per range (once in all when there is none), requests
    attributes twice per query when the query succeeds and once when it
    fails, and writes at most twice per range plus once. *)
Theorem log_colouring_counts MAX_RANGES this msg w :
  valid_handle (out_handle_ this) ->
  colours MAX_RANGES this msg = true ->
  length (filter is_buffer_info (issued (log MAX_RANGES this msg) w))
  = Nat.max 1 (N.to_nat (num_start_ranges (annotated MAX_RANGES this msg)))
  /\ length (filter is_set_attribute (issued (log MAX_RANGES this msg) w))
     = (if buffer_info_ok w then 2 else 1)
       * Nat.max 1 (N.to_nat (num_start_ranges (annotated MAX_RANGES this msg)))
  /\ (length (filter is_write (issued (log MAX_RANGES this msg) w))
      <= 2 * N.to_nat (num_start_ranges (annotated MAX_RANGES this msg)) + 1)%nat.
Proof.
  intros Hh Hc. rewrite issued_log, log_calls_device by exact Hh.
  unfold device_calls. rewrite Hc.
  set (n := num_start_ranges (annotated MAX_RANGES this msg)).
  cbn [app filter is_buffer_info is_set_attribute is_write].
  rewrite !filter_app, !length_app. cbn [filter is_buffer_info is_set_attribute
                                           is_write length].
  destruct (N.ltb_spec 0 n) as [Hpos|Hz].
  - rewrite !filter_app, !length_app.
    match goal with
    | |- context [print_range_calls ?f ?a ?b] =>
        destruct (print_range_calls_counts f a b) as (P1 & P2 & P3)
    end.
    match goal with
    | |- context [loop_calls ?f ?ok ?c ?amb ?m ?k ?i] =>
        destruct (loop_calls_counts f ok c amb m k i) as (L1 & L2 & L3)
    end.
    rewrite P1, P2, L1, L2. cbn [length].
    assert (Hn : (1 <= N.to_nat n)%nat) by lia.
    rewrite (Nat.max_r _ _ Hn). clearbody n.
    destruct (buffer_info_ok w); (split; [|split]); lia.
  - match goal with
    | |- context [span_calls ?f ?ok ?c ?amb ?a ?b] =>
        destruct (span_calls_counts f ok c amb a b) as (S1 & S2 & S3)
    end.
    rewrite S1, S2. replace (N.to_nat n) with 0%nat by lia.
    change (Nat.max 1 0) with 1%nat.
    destruct (buffer_info_ok w); (split; [|split]); lia.
Qed.

Lemma log_colouring_counts_witness :
  valid_handle (out_handle_ (console_sink format_two_ranges))
  /\ colours 3 (console_sink format_two_ranges) sample_msg = true
  /\ length (filter is_buffer_info
               (issued (log 3 (console_sink format_two_ranges) sample_msg)
                       console_no_info))
     = 2%nat
  /\ length (filter is_set_attribute
               (issued (log 3 (console_sink format_two_ranges) sample_msg)
                       console_no_info))
     = 2%nat
  /\ (length (filter is_write
                (issued (log 3 (console_sink format_two_ranges) sample_msg)
                        console_no_info))
      <= 5)%nat.
Proof.
  assert (Hh : valid_handle sample_handle) by (split; discriminate).
  split; [exact Hh|]. split; [reflexivity|].
  exact (@log_colouring_counts 3 (console_sink format_two_ranges) sample_msg
           console_no_info Hh eq_refl).
Defined.

(** ** The attribute requests, in order *)

Lemma print_range_calls_no_set formatted a b :
  filter is_set_attribute (print_range_calls formatted a b) = [].
Proof. apply (proj1 (proj2 (print_range_calls_counts formatted a b))). Qed.

Lemma span_calls_requests formatted ok color ambient a b :
  filter is_set_attribute (span_calls formatted ok color ambient a b)
  = if ok then [E_SetConsoleTextAttribute (applied color ambient);
                E_SetConsoleTextAttribute ambient]
    else [E_SetConsoleTextAttribute white].
Proof.
  unfold span_calls. rewrite (to_WORD_id (applied_is_WORD _ _)).
  cbn [filter is_set_attribute]. rewrite !filter_app, print_range_calls_no_set.
  now destruct ok.
Qed.

Lemma loop_calls_requests formatted ok color ambient msg n :
  forall i,
    filter is_set_attribute (loop_calls formatted ok color ambient msg n i)
    = concat (repeat (if ok then [E_SetConsoleTextAttribute (applied color ambient);
                                  E_SetConsoleTextAttribute ambient]
                      else [E_SetConsoleTextAttribute white]) n).
Proof.
  induction n as [|n IH]; intros i; [reflexivity|].
  cbn [loop_calls repeat concat].
  now rewrite !filter_app, span_calls_requests, print_range_calls_no_set, IH.
Qed.

(** X11. On the colouring branch, well-formed ranges or not, the attribute
    requests of [log] are, when the query succeeds, the applied level colour
    and the captured attributes in strict alternation, once per range (once
    in all when there is no range): a colour is never left applied.  When
    the query fails they are one request for white per range.  (The
    attributes of the device are a [WORD].) *)
Theorem log_requests_alternate MAX_RANGES this msg w :
  valid_handle (out_handle_ this) ->
  colours MAX_RANGES this msg = true ->
  is_WORD (wAttributes w) ->
  filter is_set_attribute (issued (log MAX_RANGES this msg) w)
  = concat
      (repeat
         (if buffer_info_ok w
          then [E_SetConsoleTextAttribute
                  (applied (colors_ this (level msg)) (wAttributes w));
                E_SetConsoleTextAttribute (wAttributes w)]
          else [E_SetConsoleTextAttribute white])
         (Nat.max 1 (N.to_nat (num_start_ranges (annotated MAX_RANGES this msg))))).
Proof.
  intros Hh Hc HW.
  rewrite issued_log, log_calls_device, (to_WORD_id HW) by exact Hh.
  unfold device_calls. rewrite Hc.
  cbn [app filter is_set_attribute]. rewrite filter_app.
  cbn [filter is_set_attribute]. rewrite app_nil_r.
  destruct (N.ltb_spec 0 (num_start_ranges (annotated MAX_RANGES this msg)))
    as [Hpos|Hz].
  - rewrite filter_app, print_range_calls_no_set, loop_calls_requests.
    now rewrite Nat.max_r by lia.
  - rewrite span_calls_requests.
    replace (N.to_nat (num_start_ranges (annotated MAX_RANGES this msg)))
      with 0%nat by lia.
    cbn [Nat.max repeat concat]. now rewrite app_nil_r.
Qed.

Lemma log_requests_alternate_witness :
  valid_handle (out_handle_ (console_sink format_two_ranges))
  /\ colours 3 (console_sink format_two_ranges) sample_msg = true
  /\ is_WORD (wAttributes console)
  /\ filter is_set_attribute
       (issued (log 3 (console_sink format_two_ranges) sample_msg) console)
     = [E_SetConsoleTextAttribute 28; E_SetConsoleTextAttribute 26;
        E_SetConsoleTextAttribute 28; E_SetConsoleTextAttribute 26].
Proof.
  assert (Hh : valid_handle sample_handle) by (split; discriminate).
  assert (HW : is_WORD (wAttributes console)) by (split; [discriminate | reflexivity]).
  split; [exact Hh|]. split; [reflexivity|]. split; [exact HW|].
  exact (@log_requests_alternate 3 (console_sink format_two_ranges) sample_msg
           console Hh eq_refl HW).
Defined.

(** ** An empty buffer *)

Lemma loop_calls_no_write_in_empty formatted ok color ambient msg :
  size formatted = 0%N ->
  forall n i lo,
    (i + N.of_nat n = num_start_ranges msg)%N ->
    ordered_within lo (ranges_from msg n i) 0 ->
    filter is_write (loop_calls formatted ok color ambient msg n i) = [].
Proof.
  intros Hsz. induction n as [|n IH]; intros i lo Hi H; [reflexivity|].
  cbn [loop_calls]. cbn [ranges_from ordered_within] in H.
  destruct H as (Hlo & Hab & Hrest).
  pose proof (ordered_within_le _ _ _ Hrest) as Hb.
  assert (Hi' : (i + 1 + N.of_nat n = num_start_ranges msg)%N)
    by (rewrite Nnat.Nat2N.inj_succ in Hi; lia).
  rewrite !filter_app, span_calls_writes, (IH _ _ Hi' Hrest), app_nil_r.
  unfold print_range_calls.
  replace (at_ (color_ranges_end msg) i) with 0%N by lia.
  replace (at_ (color_ranges_start msg) i) with 0%N by lia.
  cbn [N.ltb N.compare filter app].
  destruct (i + 1 <? num_start_ranges msg)%N eqn:E.
  - destruct n as [|n]; [apply N.ltb_lt in E; simpl in Hi'; lia|].
    cbn [ranges_from ordered_within] in Hrest.
    destruct Hrest as (_ & Hab' & Hrest').
    apply ordered_within_le in Hrest'.
    replace (at_ (color_ranges_start msg) (i + 1)) with 0%N by lia.
    reflexivity.
  - now rewrite Hsz.
Qed.

(** X12. When the formatter produces no byte: the plain branch still issues
    one [WriteFile], of length 0; the colouring branch, with ranges that are
    within the (empty) buffer, issues no write at all although it still
    queries and requests attributes. *)
Theorem log_empty_buffer MAX_RANGES this msg w :
  valid_handle (out_handle_ this) ->
  formatted_by MAX_RANGES this msg = [] ->
  (colours MAX_RANGES this msg = false ->
   issued (log MAX_RANGES this msg) w
   = [E_lock; E_format (cleared MAX_RANGES msg); E_WriteFile [] 0; E_unlock])
  /\ (colours MAX_RANGES this msg = true ->
      ordered_within 0 (ranges (annotated MAX_RANGES this msg)) 0 ->
      filter is_write (issued (log MAX_RANGES this msg) w) = []
      /\ filter is_buffer_info (issued (log MAX_RANGES this msg) w) <> []
      /\ filter is_set_attribute (issued (log MAX_RANGES this msg) w) <> []).
Proof.
  intros Hh He. rewrite issued_log, log_calls_device by exact Hh.
  unfold device_calls. rewrite He. split.
  - intros Hc. now rewrite Hc.
  - intros Hc Hord. rewrite Hc.
    cbn [app filter is_write is_buffer_info is_set_attribute].
    rewrite !filter_app. cbn [filter is_write is_buffer_info is_set_attribute].
    rewrite !app_nil_r.
    change (size []) with 0%N.
    destruct (N.ltb_spec 0 (num_start_ranges (annotated MAX_RANGES this msg)))
      as [Hpos|Hz].
    + unfold ranges in Hord.
      destruct (N.to_nat (num_start_ranges (annotated MAX_RANGES this msg)))
        as [|n] eqn:En; [lia|].
      split; [|split].
      * rewrite filter_app.
        rewrite (@loop_calls_no_write_in_empty [] _ _ _ _ eq_refl (S n) 0%N 0%N);
          [|rewrite <- En; now rewrite Nnat.N2Nat.id | exact Hord].
        cbn [ranges_from ordered_within] in Hord.
        destruct Hord as (_ & Hab & Hrest). apply ordered_within_le in Hrest.
        unfold print_range_calls.
        replace (at_ (color_ranges_start (annotated MAX_RANGES this msg)) 0)
          with 0%N by lia.
        reflexivity.
      * rewrite filter_app. cbn [loop_calls span_calls filter is_buffer_info app].
        intros H. apply app_eq_nil in H. destruct H as [_ H]. discriminate H.
      * rewrite filter_app. cbn [loop_calls].
        rewrite !filter_app, span_calls_requests.
        intros H. apply app_eq_nil in H. destruct H as [_ H].
        apply app_eq_nil in H. destruct H as [H _].
        destruct (buffer_info_ok w); discriminate H.
    + split; [|split].
      * rewrite span_calls_writes. reflexivity.
      * unfold span_calls. cbn [filter is_buffer_info]. discriminate.
      * rewrite span_calls_requests. destruct (buffer_info_ok w); discriminate.
Qed.

Lemma log_empty_buffer_witness :
  valid_handle (out_handle_ (plain_console_sink format_empty))
  /\ formatted_by 3 (plain_console_sink format_empty) sample_msg = []
  /\ colours 3 (plain_console_sink format_empty) sample_msg = false
  /\ issued (log 3 (plain_console_sink format_empty) sample_msg) console
     = [E_lock; E_format sample_cleared; E_WriteFile [] 0; E_unlock]
  /\ colours 3 (console_sink format_empty) sample_msg = true
  /\ filter is_write (issued (log 3 (console_sink format_empty) sample_msg) console)
     = [].
Proof.
  assert (Hh : valid_handle sample_handle) by (split; discriminate).
  split; [exact Hh|]. do 2 (split; [reflexivity|]).
  split.
  - exact (proj1 (@log_empty_buffer 3 (plain_console_sink format_empty) sample_msg
                    console Hh eq_refl) eq_refl).
  - split; [reflexivity|].
    refine (proj1 (proj2 (@log_empty_buffer 3 (console_sink format_empty) sample_msg
                            console Hh eq_refl) eq_refl _)).
    cbn. discriminate.
Defined.

(** ** Colouring switched off *)

Lemma log_colours_off MAX_RANGES this msg w :
  should_do_colors_ this = false ->
  filter is_buffer_info (issued (log MAX_RANGES this msg) w) = []
  /\ filter is_set_attribute (issued (log MAX_RANGES this msg) w) = []
  /\ filter is_WriteConsoleA (issued (log MAX_RANGES this msg) w) = []
  /\ wAttributes (snd (log MAX_RANGES this msg w)) = wAttributes w.
Proof.
  intros Hs.
  assert (Hc : colours MAX_RANGES this msg = false).
  { unfold colours. rewrite Hs. now rewrite Bool.andb_false_r. }
  rewrite issued_log, log_run. cbn [snd].
  destruct (handle_cases (out_handle_ this)) as [Hh|Hh].
  - rewrite log_calls_device by exact Hh.
    unfold device_calls. rewrite Hc.
    do 3 (split; [reflexivity|]).
    now rewrite replay_no_set.
  - rewrite log_calls_invalid by exact Hh. now repeat split.
Qed.

(** X13. Once the mode has been resolved to no colouring, by [never] or by
    [automatic] on a device whose console mode cannot be read, through
    [set_color_mode] or through the constructor, no later [log] queries or
    requests attributes or calls [WriteConsoleA], and it leaves the
    attributes of the device as they are. *)
Theorem log_after_colours_resolved_off
        (pattern_formatter : option string -> formatter)
        MAX_RANGES mode this raw out_handle w0 msg w :
  mode = never \/ (mode = automatic /\ console_mode_ok w0 = false) ->
  (filter is_buffer_info
     (issued (log MAX_RANGES (fst (set_color_mode mode this w0)) msg) w) = []
   /\ filter is_set_attribute
        (issued (log MAX_RANGES (fst (set_color_mode mode this w0)) msg) w) = []
   /\ filter is_WriteConsoleA
        (issued (log MAX_RANGES (fst (set_color_mode mode this w0)) msg) w) = []
   /\ wAttributes (snd (log MAX_RANGES (fst (set_color_mode mode this w0)) msg w))
      = wAttributes w)
  /\ (filter is_buffer_info
        (issued (log MAX_RANGES
                     (fst (wincolor_sink_ctor pattern_formatter raw out_handle mode w0))
                     msg) w) = []
      /\ filter is_set_attribute
           (issued (log MAX_RANGES
                        (fst (wincolor_sink_ctor pattern_formatter raw out_handle
                                                 mode w0))
                        msg) w) = []
      /\ filter is_WriteConsoleA
           (issued (log MAX_RANGES
                        (fst (wincolor_sink_ctor pattern_formatter raw out_handle
                                                 mode w0))
                        msg) w) = []
      /\ wAttributes
           (snd (log MAX_RANGES
                     (fst (wincolor_sink_ctor pattern_formatter raw out_handle mode w0))
                     msg w))
         = wAttributes w).
Proof.
  intros Hm. split.
  - apply log_colours_off. rewrite set_color_mode_run. cbn [fst should_do_colors_].
    destruct Hm as [-> | [-> Hp]]; [reflexivity | exact Hp].
  - apply log_colours_off. rewrite wincolor_sink_ctor_should_do_colors.
    destruct Hm as [-> | [-> Hp]]; [reflexivity | exact Hp].
Qed.

Lemma log_after_colours_resolved_off_witness :
  (automatic = never \/ (automatic = automatic /\ console_mode_ok redirected = false))
  /\ filter is_set_attribute
       (issued (log 3 (fst (set_color_mode automatic
                                            (console_sink format_two_ranges)
                                            redirected))
                    sample_msg) console) = []
  /\ wAttributes
       (snd (log 3 (fst (set_color_mode automatic (console_sink format_two_ranges)
                                        redirected))
                 sample_msg console))
     = wAttributes console.
Proof.
  assert (Hm : automatic = never
               \/ (automatic = automatic /\ console_mode_ok redirected = false))
    by (right; split; reflexivity).
  pose proof (@log_after_colours_resolved_off
                (fun _ => format_unmarked) 3 automatic
                (console_sink format_two_ranges) (console_sink format_two_ranges)
                sample_handle redirected sample_msg console Hm)
    as [(_ & Hset & _ & Hattr) _].
  split; [exact Hm|]. split; [exact Hset | exact Hattr].
Defined.

(** ** Replacing the formatter *)

(** X14. [set_formatter] and [set_pattern] replace the formatter and nothing
    else, taking and releasing the lock; the next [log] hands the cleared
    message to the new formatter, and on a redirected device writes the
    bytes it produced (fewer than 2^32) in one [WriteFile]. *)
Theorem set_formatter_then_log
        (pattern_formatter : option string -> formatter)
        MAX_RANGES sink_formatter pattern this w0 msg w :
  set_formatter sink_formatter this w0
  = (mk_sink (out_handle_ this) sink_formatter (colors_ this)
             (in_console_ this) (should_do_colors_ this),
     append_calls [E_lock; E_unlock] w0)
  /\ set_pattern pattern_formatter pattern this w0
     = (mk_sink (out_handle_ this) (pattern_formatter (Some pattern)) (colors_ this)
                (in_console_ this) (should_do_colors_ this),
        append_calls [E_lock; E_unlock] w0)
  /\ (valid_handle (out_handle_ this) ->
      in_console_ this = false ->
      (size (dest (sink_formatter (cleared MAX_RANGES msg))) < 2 ^ 32)%N ->
      issued (log MAX_RANGES (fst (set_formatter sink_formatter this w0)) msg) w
      = [E_lock; E_format (cleared MAX_RANGES msg);
         E_WriteFile (dest (sink_formatter (cleared MAX_RANGES msg)))
                     (size (dest (sink_formatter (cleared MAX_RANGES msg))));
         E_unlock]).
Proof.
  assert (E : forall f, (lock_guard ;; unlock_guard ;; ret (with_formatter f this)) w0
                        = (with_formatter f this, append_calls [E_lock; E_unlock] w0)).
  { intros f. unfold bind, lock_guard, unlock_guard, emit, ret, record_call,
      append_calls. cbn. now rewrite <- app_assoc. }
  split; [exact (E sink_formatter)|].
  split; [exact (E (pattern_formatter (Some pattern)))|].
  intros Hh Hc Hsz.
  change (fst (set_formatter sink_formatter this w0))
    with (with_formatter sink_formatter this).
  eapply issued_append.
  rewrite log_plain; [|exact Hh | left; exact Hc].
  unfold formatted_by. cbn [with_formatter formatter_].
  now rewrite (to_DWORD_small Hsz).
Qed.

(** ** Sinks on the standard handles *)

Lemma wincolor_sink_ctor_handle
      (pattern_formatter : option string -> formatter) raw out_handle mode w :
  out_handle_ (fst (wincolor_sink_ctor pattern_formatter raw out_handle mode w))
  = out_handle.
Proof.
  unfold wincolor_sink_ctor.
  erewrite bind_run by apply set_color_mode_impl_run. reflexivity.
Qed.

(** X15. When the process has no standard output (or standard error), so
    that [GetStdHandle] gives a null or invalid handle, the sink built on it
    is still constructed, and every [log] on it is a no-op: the message and
    the world come back unchanged. *)
Theorem log_on_missing_std_handle
        (pattern_formatter : option string -> formatter)
        (GetStdHandle : Z -> HANDLE) MAX_RANGES raw mode w0 msg w :
  (GetStdHandle STD_OUTPUT_HANDLE = nullptr
   \/ GetStdHandle STD_OUTPUT_HANDLE = INVALID_HANDLE_VALUE ->
   log MAX_RANGES
       (fst (wincolor_stdout_sink_ctor pattern_formatter GetStdHandle raw mode w0))
       msg w
   = (msg, w))
  /\ (GetStdHandle STD_ERROR_HANDLE = nullptr
      \/ GetStdHandle STD_ERROR_HANDLE = INVALID_HANDLE_VALUE ->
      log MAX_RANGES
          (fst (wincolor_stderr_sink_ctor pattern_formatter GetStdHandle raw mode w0))
          msg w
      = (msg, w)).
Proof.
  split; intros H; unfold wincolor_stdout_sink_ctor, wincolor_stderr_sink_ctor;
    unfold log; rewrite wincolor_sink_ctor_handle;
    now rewrite (invalid_handle_guard H).
Qed.

(** ** The properties above on the sample inputs *)

(** A colour set for [info] does not change how an [err] message is
    logged. *)
Lemma set_color_then_log_witness :
  level sample_msg <> level.info
  /\ log 3 (fst (set_color level.info 5 (console_sink format_two_ranges) redirected))
         sample_msg console
     = log 3 (console_sink format_two_ranges) sample_msg console.
Proof.
  assert (Hl : level sample_msg <> level.info) by discriminate.
  split; [exact Hl|].
  exact (proj1 (@set_color_then_log 3 level.info 5 (console_sink format_two_ranges)
                  redirected sample_msg console) Hl).
Defined.

(** The null sink issues nothing; the console sink brackets its calls with
    the lock. *)
Lemma log_lock_discipline_witness :
  (out_handle_ null_sink = nullptr \/ out_handle_ null_sink = INVALID_HANDLE_VALUE)
  /\ issued (log 3 null_sink sample_msg) console = []
  /\ valid_handle (out_handle_ (console_sink format_two_ranges))
  /\ exists body,
       issued (log 3 (console_sink format_two_ranges) sample_msg) console
       = [E_lock] ++ body ++ [E_unlock]
       /\ filter is_lock body = []
       /\ filter is_unlock body = [].
Proof.
  assert (Hn : out_handle_ null_sink = nullptr
               \/ out_handle_ null_sink = INVALID_HANDLE_VALUE) by (left; reflexivity).
  assert (Hh : valid_handle sample_handle) by (split; discriminate).
  split; [exact Hn|].
  split; [exact (proj1 (@log_lock_discipline 3 null_sink sample_msg console) Hn)|].
  split; [exact Hh|].
  exact (proj2 (@log_lock_discipline 3 (console_sink format_two_ranges) sample_msg
                  console) Hh).
Defined.

(** With colouring off the only device call is one [WriteFile]; with it on
    there is none. *)
Lemma log_write_calls_exclusive_witness :
  valid_handle (out_handle_ (plain_console_sink format_two_ranges))
  /\ colours 3 (plain_console_sink format_two_ranges) sample_msg = false
  /\ issued (log 3 (plain_console_sink format_two_ranges) sample_msg) console
     = [E_lock; E_format sample_cleared;
        E_WriteFile (bytes "0123456789") 10; E_unlock]
  /\ colours 3 (console_sink format_two_ranges) sample_msg = true
  /\ filter is_WriteFile
       (issued (log 3 (console_sink format_two_ranges) sample_msg) console) = [].
Proof.
  assert (Hh : valid_handle sample_handle) by (split; discriminate).
  split; [exact Hh|]. split; [reflexivity|].
  split.
  - exact (proj2 (proj2 (@log_write_calls_exclusive
                           3 (plain_console_sink format_two_ranges) sample_msg console))
                 Hh eq_refl).
  - split; [reflexivity|].
    exact (proj1 (proj2 (@log_write_calls_exclusive
                           3 (console_sink format_two_ranges) sample_msg console))
                 eq_refl).
Defined.

(** A redirected sink whose formatter is replaced writes what the new
    formatter produces. *)
Lemma set_formatter_then_log_witness :
  valid_handle (out_handle_ (file_sink format_empty))
  /\ in_console_ (file_sink format_empty) = false
  /\ (size (dest (format_two_ranges (cleared 3 sample_msg))) < 2 ^ 32)%N
  /\ issued (log 3 (fst (set_formatter format_two_ranges (file_sink format_empty)
                                       redirected))
                 sample_msg) console
     = [E_lock; E_format sample_cleared;
        E_WriteFile (bytes "0123456789") 10; E_unlock].
Proof.
  assert (Hh : valid_handle sample_handle) by (split; discriminate).
  assert (Hsz : (size (dest (format_two_ranges (cleared 3 sample_msg))) < 2 ^ 32)%N)
    by reflexivity.
  split; [exact Hh|]. split; [reflexivity|]. split; [exact Hsz|].
  exact (proj2 (proj2 (@set_formatter_then_log
                         (fun _ => format_unmarked) 3 format_two_ranges EmptyString
                         (file_sink format_empty) redirected sample_msg console))
               Hh eq_refl Hsz).
Defined.

(** A process without standard handles: the stdout sink drops the message. *)
Lemma log_on_missing_std_handle_witness :
  ((fun _ : Z => nullptr) STD_OUTPUT_HANDLE = nullptr
   \/ (fun _ : Z => nullptr) STD_OUTPUT_HANDLE = INVALID_HANDLE_VALUE)
  /\ log 3 (fst (wincolor_stdout_sink_ctor (fun _ => format_two_ranges)
                                           (fun _ => nullptr)
                                           (console_sink format_unmarked)
                                           always console))
         sample_msg console
     = (sample_msg, console).
Proof.
  assert (Hn : (fun _ : Z => nullptr) STD_OUTPUT_HANDLE = nullptr
               \/ (fun _ : Z => nullptr) STD_OUTPUT_HANDLE = INVALID_HANDLE_VALUE)
    by (left; reflexivity).
  split; [exact Hn|].
  exact (proj1 (@log_on_missing_std_handle
                  (fun _ => format_two_ranges) (fun _ => nullptr) 3
                  (console_sink format_unmarked) always console sample_msg console)
               Hn).
Defined.
